(** * Manthan classroom service: the routes of [routes/api/classrooms.js]

    The Express router of the classroom service is embedded as functions
    over an explicit server state (the two Mongoose collections and the
    JavaScript global object).  Every handler is an [async] function whose
    body is one [try]/[catch]; it is modelled in a state-and-exception
    monad, and [try_catch] turns a thrown JavaScript error into the reply
    the [catch] block sends.

    JavaScript values stay dynamically typed where the source relies on
    it: property reads by name ([classroom.users]), truthiness tests
    ([!classrooms]), loose equality ([author._id == req.user.id]) and
    identifier resolution ([users]) are all functions over [value]. *)

From Stdlib Require Import Ascii String.
From stdpp Require Import base strings list gmap.

Local Open Scope string_scope.
Local Open Scope list_scope.

(** An identity reference (a Mongoose ObjectId), kept as the string that
    [toString] gives for it.  The references the server holds itself, those
    of the stored documents and [req.user.id], which the [auth] middleware
    reads from a token the server issued, are in that form already.  A
    string the client chooses, the route parameter [:user], is not: where
    Mongoose uses it as a reference it casts it first ([cast_ObjectId]). *)
Abbreviation ObjectId := string (only parsing).

(** ** Documents *)

Module User.
(** Modelled from the spec: [models/User.js] is not among the sources.
    A user is an opaque identity, an id and profile fields, owned by the
    identity subsystem; [password] is its credential field, absent
    ([None]) once a query has applied [select('-password')]. *)
Record t := mk {
  _id : ObjectId;
  profile : list (string * string);
  password : option string
}.
End User.

Module Classroom.
(** Modelled from the spec: [models/Classroom.js] is not among the
    sources.  The paths of the schema are those of the data model:
    [code], [title], [subject], [subCode], [cover], [author] and
    [joinedUsers]; [_id] is the primary key every Mongoose document
    carries.  The display fields are absent ([None]) when the request
    that created the record did not carry them. *)
Record t := mk {
  _id : ObjectId;
  code : string;
  title : option string;
  subject : option string;
  subCode : option string;
  cover : option string;
  author : ObjectId;
  joinedUsers : list ObjectId
}.
End Classroom.

(** One entry of the array [validationResult(req).array()]. *)
Record ValidationError := mkValidationError {
  param : string;
  msg : string
}.

(** ** JavaScript values *)

Inductive value :=
| VUndefined
| VNull
| VStr (s : string)
| VId (o : ObjectId)
| VIds (l : list ObjectId)
| VUser (u : User.t)
| VUsers (l : list User.t)
| VClassroom (c : Classroom.t)
| VClassrooms (l : list Classroom.t)
| VMsg (m : string)                      (* the object { msg: m } *)
| VErrors (errs : list ValidationError)  (* the object { errors: errs } *)
| VModule (name : string).               (* a module-scope binding *)

Inductive exn :=
| TypeError (what : string)
| ReferenceError (name : string)
| CastError (path : string).

Inductive Outcome (A : Type) :=
| Ok (a : A)
| Throw (e : exn).
Arguments Ok {A} a.
Arguments Throw {A} e.

(** [!v] is [negb (truthy v)]: [undefined], [null] and the empty string are
    falsy, every object and every array (the empty one too) is truthy. *)
Definition truthy (v : value) : bool :=
  match v with
  | VUndefined | VNull => false
  | VStr s => negb (String.eqb s "")
  | _ => true
  end.

Definition opt_str (o : option string) : value :=
  match o with
  | Some s => VStr s
  | None => VUndefined
  end.

(** Reading a path of a Mongoose document: a path of the schema yields
    its value, any other name yields [undefined]. *)
Definition Classroom_get (c : Classroom.t) (p : string) : value :=
  if String.eqb p "_id" then VId (Classroom._id c)
  else if String.eqb p "code" then VStr (Classroom.code c)
  else if String.eqb p "title" then opt_str (Classroom.title c)
  else if String.eqb p "subject" then opt_str (Classroom.subject c)
  else if String.eqb p "subCode" then opt_str (Classroom.subCode c)
  else if String.eqb p "cover" then opt_str (Classroom.cover c)
  else if String.eqb p "author" then VId (Classroom.author c)
  else if String.eqb p "joinedUsers" then VIds (Classroom.joinedUsers c)
  else VUndefined.

Definition User_get (u : User.t) (p : string) : value :=
  if String.eqb p "_id" then VId (User._id u)
  else if String.eqb p "password" then opt_str (User.password u)
  else match List.find (fun kv => String.eqb (fst kv) p) (User.profile u) with
       | Some kv => VStr (snd kv)
       | None => VUndefined
       end.

(** The member expression [v.p].  Reading a property of [undefined] or
    [null] throws a TypeError; an ObjectId answers [_id] with itself
    (the getter Mongoose installs on ObjectId). *)
Definition get_prop (v : value) (p : string) : Outcome value :=
  match v with
  | VUndefined | VNull => Throw (TypeError p)
  | VClassroom c => Ok (Classroom_get c p)
  | VUser u => Ok (User_get u p)
  | VId o => Ok (if String.eqb p "_id" then VId o else VUndefined)
  | VMsg m => Ok (if String.eqb p "msg" then VStr m else VUndefined)
  | _ => Ok VUndefined
  end.

(** The loose equality [a == b] between a string and an ObjectId (or two
    strings): the ObjectId is converted by [toString] and the strings are
    compared.  Two distinct objects are never loosely equal. *)
Definition loose_eq (a b : value) : bool :=
  match a, b with
  | VStr s, VStr t | VStr s, VId t | VId s, VStr t => String.eqb s t
  | VUndefined, VUndefined | VNull, VNull
  | VUndefined, VNull | VNull, VUndefined => true
  | _, _ => false
  end.

Definition opt_value {A} (inj : A -> value) (o : option A) : value :=
  match o with
  | Some a => inj a
  | None => VUndefined
  end.

(** The call [arr.find(cb)].  On a value that is not an array the
    property [find] is missing, and calling it throws a TypeError. *)
Definition array_find (arr : value) (cb : value -> bool) : Outcome value :=
  match arr with
  | VIds l => Ok (opt_value VId (List.find (fun o => cb (VId o)) l))
  | VUsers l => Ok (opt_value VUser (List.find (fun u => cb (VUser u)) l))
  | VClassrooms l =>
      Ok (opt_value VClassroom (List.find (fun c => cb (VClassroom c)) l))
  | _ => Throw (TypeError "find")
  end.

(** ** Server state and the handler monad *)

Record Server := mkServer {
  classrooms : list Classroom.t;     (* the Classroom collection *)
  users : list User.t;               (* the User collection *)
  globals : gmap string value        (* properties of the global object *)
}.

Definition Act (A : Type) : Type := Server -> Server * Outcome A.

#[export] Instance Act_ret : MRet Act := fun A a srv => (srv, Ok a).

#[export] Instance Act_bind : MBind Act := fun A B f m srv =>
  match m srv with
  | (srv', Ok a) => f a srv'
  | (srv', Throw e) => (srv', Throw e)
  end.

Definition lift {A} (o : Outcome A) : Act A := fun srv => (srv, o).

Inductive Payload :=
| Json (v : value)
| Send (text : string).

Record Response := mkResponse {
  status : nat;
  payload : Payload
}.

(** [res.json(v)] answers with status 200 unless [res.status(n)] was
    called first. *)
Definition res_json (v : value) : Response := mkResponse 200 (Json v).
Definition res_status_json (n : nat) (v : value) : Response :=
  mkResponse n (Json v).
Definition res_status_send (n : nat) (text : string) : Response :=
  mkResponse n (Send text).

(** [try { body } catch (err) { handler }]: what the body changed before
    it threw stays changed. *)
Definition try_catch (body : Act Response) (handler : exn -> Response)
  : Server -> Server * Response :=
  fun srv =>
    match body srv with
    | (srv', Ok r) => (srv', r)
    | (srv', Throw e) => (srv', handler e)
    end.


(** ** The Mongoose model layer

    A collection is the list of its documents in insertion order;
    [findOne] and [findOneAndUpdate] act on the first document that
    matches the filter. *)

(** A filter such as [{ code: c, joinedUsers: u }], one entry per path. *)
Definition Query := list (string * string).

(** A scalar path matches by equality, an array path when the array
    contains the operand. *)
Definition matches_cond (get : string -> value) (cond : string * string)
  : bool :=
  match get (fst cond) with
  | VStr s | VId s => String.eqb s (snd cond)
  | VIds l => existsb (String.eqb (snd cond)) l
  | _ => false
  end.

Definition matches (q : Query) (c : Classroom.t) : bool :=
  forallb (matches_cond (Classroom_get c)) q.

(** Update documents: [{ $set: {...} }], [{ $push: { path: v } }] and
    [{ $pull: { path: { $in: operand } } }]. *)
Inductive Update :=
| USet (fields : list (string * option string))
| UPush (path : string) (v : ObjectId)
| UPullIn (path : string) (operand : value).

(** [$set] of one path.  The schema is strict (the Mongoose default): a
    path the schema does not declare is dropped from the update. *)
Definition set_path (c : Classroom.t) (kv : string * option string)
  : Classroom.t :=
  let (p, v) := kv in
  if String.eqb p "title" then
    Classroom.mk (Classroom._id c) (Classroom.code c) v (Classroom.subject c)
      (Classroom.subCode c) (Classroom.cover c) (Classroom.author c)
      (Classroom.joinedUsers c)
  else if String.eqb p "subject" then
    Classroom.mk (Classroom._id c) (Classroom.code c) (Classroom.title c) v
      (Classroom.subCode c) (Classroom.cover c) (Classroom.author c)
      (Classroom.joinedUsers c)
  else if String.eqb p "subCode" then
    Classroom.mk (Classroom._id c) (Classroom.code c) (Classroom.title c)
      (Classroom.subject c) v (Classroom.cover c) (Classroom.author c)
      (Classroom.joinedUsers c)
  else if String.eqb p "cover" then
    Classroom.mk (Classroom._id c) (Classroom.code c) (Classroom.title c)
      (Classroom.subject c) (Classroom.subCode c) v (Classroom.author c)
      (Classroom.joinedUsers c)
  else c.

Definition with_joinedUsers (c : Classroom.t) (l : list ObjectId)
  : Classroom.t :=
  Classroom.mk (Classroom._id c) (Classroom.code c) (Classroom.title c)
    (Classroom.subject c) (Classroom.subCode c) (Classroom.cover c)
    (Classroom.author c) l.

(** The cast of a string to an ObjectId, as the driver of Mongoose 5 does
    it: a string of 24 hexadecimal digits, in either letter case, is the
    reference those digits spell, and a string of 12 characters is the
    reference that has these 12 bytes; any other string is no reference
    (Mongoose then raises a CastError).  The result is in the lower-case
    form of [toString]. *)
Definition is_hex_digit (ch : ascii) : bool :=
  let n := nat_of_ascii ch in
  Nat.leb 48 n && Nat.leb n 57 || Nat.leb 65 n && Nat.leb n 70
  || Nat.leb 97 n && Nat.leb n 102.

Definition to_lower_hex (ch : ascii) : ascii :=
  let n := nat_of_ascii ch in
  if Nat.leb 65 n && Nat.leb n 70 then ascii_of_nat (n + 32) else ch.

Definition hex_digit (n : nat) : ascii :=
  match String.get n "0123456789abcdef" with
  | Some ch => ch
  | None => "0"%char
  end.

Definition hex_of_byte (ch : ascii) : string :=
  let n := nat_of_ascii ch in
  String (hex_digit (n / 16)) (String (hex_digit (n mod 16)) EmptyString).

Definition cast_ObjectId (s : string) : option ObjectId :=
  let chars := list_ascii_of_string s in
  if Nat.eqb (String.length s) 24 && forallb is_hex_digit chars
  then Some (string_of_list_ascii (List.map to_lower_hex chars))
  else if Nat.eqb (String.length s) 12
  then Some (String.concat "" (List.map hex_of_byte chars))
  else None.

Arguments cast_ObjectId : simpl never.

(** The cast of a [$in] operand that the client sent as a string: the
    reference it spells, or a CastError on the path, which rejects the
    call before anything is written. *)
Definition cast_operand (path s : string) : Outcome value :=
  match cast_ObjectId s with
  | Some o => Ok (VId o)
  | None => Throw (CastError path)
  end.

(** The references a [$in] operand stands for, once it is cast: an array
    is kept, a single reference is wrapped into a one-element array, and
    [undefined] (cast to [null]) equals no reference.  A string operand
    here is a reference in the form of [toString], such as [req.user.id];
    a string of the client goes through [cast_operand] first. *)
Definition in_operand (v : value) : list ObjectId :=
  match v with
  | VIds l => l
  | VStr s | VId s => [s]
  | _ => []
  end.

(** [$pull] with [$in] on an array of references: every element that is
    one of the references of the cast operand is removed. *)
Definition pull_in (operand : value) (l : list ObjectId) : list ObjectId :=
  List.filter (fun x => negb (existsb (String.eqb x) (in_operand operand))) l.

Definition apply_update (u : Update) (c : Classroom.t) : Classroom.t :=
  match u with
  | USet fields => fold_left set_path fields c
  | UPush p v =>
      if String.eqb p "joinedUsers"
      then with_joinedUsers c (Classroom.joinedUsers c ++ [v])
      else c
  | UPullIn p operand =>
      if String.eqb p "joinedUsers"
      then with_joinedUsers c (pull_in operand (Classroom.joinedUsers c))
      else c
  end.

Fixpoint update_first (p : Classroom.t -> bool)
  (f : Classroom.t -> Classroom.t) (l : list Classroom.t)
  : list Classroom.t * option Classroom.t :=
  match l with
  | [] => ([], None)
  | c :: l' =>
      if p c then (f c :: l', Some (f c))
      else let (l'', r) := update_first p f l' in (c :: l'', r)
  end.

Fixpoint delete_first (p : Classroom.t -> bool) (l : list Classroom.t)
  : list Classroom.t :=
  match l with
  | [] => []
  | c :: l' => if p c then l' else c :: delete_first p l'
  end.

Definition set_classrooms (srv : Server) (l : list Classroom.t) : Server :=
  mkServer l (users srv) (globals srv).

(** [Classroom.find(q)]: always an array. *)
Definition Classroom_find (q : Query) : Act value := fun srv =>
  (srv, Ok (VClassrooms (List.filter (matches q) (classrooms srv)))).

(** [Classroom.findOne(q)]: the first match, or [null]. *)
Definition Classroom_findOne (q : Query) : Act value := fun srv =>
  (srv, Ok (match List.find (matches q) (classrooms srv) with
            | Some c => VClassroom c
            | None => VNull
            end)).

(** [Classroom.findOneAndUpdate(q, u, { new: true })]: the updated
    document, or [null] when nothing matches. *)
Definition Classroom_findOneAndUpdate (q : Query) (u : Update) : Act value :=
  fun srv =>
    let (l, r) := update_first (matches q) (apply_update u) (classrooms srv) in
    (set_classrooms srv l,
     Ok (match r with Some c => VClassroom c | None => VNull end)).

(** [doc.remove()]: deletes the document whose [_id] is that of [doc]. *)
Definition Classroom_remove (doc : value) : Act unit := fun srv =>
  match doc with
  | VClassroom c =>
      (set_classrooms srv
         (delete_first
            (fun d => String.eqb (Classroom._id d) (Classroom._id c))
            (classrooms srv)),
       Ok tt)
  | _ => (srv, Throw (TypeError "remove"))
  end.

(** [doc.save()] of a new document.  The source does not await it; the
    insertion is taken to complete within the request. *)
Definition Classroom_save (c : Classroom.t) : Act unit := fun srv =>
  (set_classrooms srv (classrooms srv ++ [c]), Ok tt).

Definition select_minus_password (u : User.t) : User.t :=
  User.mk (User._id u) (User.profile u) None.

(** [User.findById(id).select('-password')]. *)
Definition User_findById (id : ObjectId) : Act value := fun srv =>
  (srv, Ok (match List.find (fun u => String.eqb (User._id u) id)
                    (users srv) with
            | Some u => VUser (select_minus_password u)
            | None => VNull
            end)).

(** [User.find({ _id: { $in: operand } }).select('-password')]. *)
Definition User_find_id_in (operand : value) : Act value := fun srv =>
  (srv, Ok (VUsers (List.map select_minus_password
              (List.filter
                 (fun u => existsb (String.eqb (User._id u))
                             (in_operand operand))
                 (users srv))))).

(** [new Classroom({ author, title, subject, subCode, cover, code,
    joinedUsers })].  [oid] is the fresh [_id] the driver assigns.  The
    [author] path holds a reference, so a user document given for it is
    cast to its [_id]. *)
Definition new_Classroom (oid : ObjectId) (author : value)
  (title subject subCode cover : option string) (code : string)
  (joinedUsers : list value) : Outcome Classroom.t :=
  let ref (v : value) : option ObjectId :=
    match v with
    | VUser u => Some (User._id u)
    | VId o | VStr o => Some o
    | _ => None
    end in
  match ref author, mapM ref joinedUsers with
  | Some a, Some l => Ok (Classroom.mk oid code title subject subCode cover a l)
  | None, _ => Throw (CastError "author")
  | _, None => Throw (CastError "joinedUsers")
  end.

(** ** Identifiers *)

(** The [const] bindings at the top of the module. *)
Definition module_scope : list string :=
  ["express"; "router"; "check"; "validationResult"; "randomatic"; "multer";
   "auth"; "Classroom"; "User"; "upload"].

(** Resolving an identifier that no enclosing function binds: the module
    scope first, then the global object; a name bound by neither throws a
    ReferenceError. *)
Definition ident (x : string) : Act value := fun srv =>
  if existsb (String.eqb x) module_scope then (srv, Ok (VModule x))
  else match globals srv !! x with
       | Some v => (srv, Ok v)
       | None => (srv, Throw (ReferenceError x))
       end.

(** An assignment [x = v] to an identifier that nothing declares: the
    module is not in strict mode, so it creates the global [x]. *)
Definition assign_global (x : string) (v : value) : Act unit := fun srv =>
  (mkServer (classrooms srv) (users srv) (<[x := v]> (globals srv)), Ok tt).

(** ** The join-code generator *)

Module Randomatic.
(** Modelled from the spec: the package [randomatic] that the create route
    calls is not among the sources.  [randomatic(pattern, length)] builds a
    mask from the character classes the pattern names (['a'] lower-case
    letters, ['A'] upper-case letters, ['0'] digits, ['!'] specials, ['*']
    all of them) and draws [length] characters of the mask.  [rnd i] stands
    for the i-th value of [Math.random()]; the index drawn from it lies
    below the length of the mask. *)
Definition lower : string := "abcdefghijklmnopqrstuvwxyz".
Definition upper : string := "ABCDEFGHIJKLMNOPQRSTUVWXYZ".
Definition number : string := "0123456789".
Definition special : string := "~!@#$%^&()_+-={}[];',.".
Definition all : string :=
  String.append lower (String.append upper (String.append number special)).

Definition has (ch : ascii) (pattern : string) : bool :=
  existsb (Ascii.eqb ch) (list_ascii_of_string pattern).

Definition mask_of (pattern : string) : string :=
  String.append (if has "a"%char pattern then lower else "")
    (String.append (if has "A"%char pattern then upper else "")
       (String.append (if has "0"%char pattern then number else "")
          (String.append (if has "!"%char pattern then special else "")
             (if has "*"%char pattern then all else "")))).

Definition charAt (s : string) (k : nat) : string :=
  match String.get k s with
  | Some c => String c EmptyString
  | None => ""
  end.

Fixpoint draw (mask : string) (rnd : nat -> nat) (len i : nat) : string :=
  match len with
  | 0 => ""
  | S n =>
      String.append (charAt mask (rnd i mod String.length mask))
        (draw mask rnd n (S i))
  end.

Definition randomatic (pattern : string) (len : nat) (rnd : nat -> nat)
  : string :=
  draw (mask_of pattern) rnd len 0.
End Randomatic.

(** ** Requests *)

(** What a handler reads of [req]: [req.user.id], set by the [auth]
    middleware, the route parameters [req.params.code] and
    [req.params.user], which are the strings of the URL as the client
    sent them, and the fields of the JSON body. *)
Record Request := mkRequest {
  user_id : ObjectId;
  params_code : string;
  params_user : string;
  body : gmap string string
}.

(** [check(field, message).notEmpty()]: an error when the field is
    missing or is the empty string. *)
Definition check_notEmpty (field message : string) (req : Request)
  : list ValidationError :=
  match body req !! field with
  | Some s =>
      if String.eqb s "" then [mkValidationError field message] else []
  | None => [mkValidationError field message]
  end.

Definition validationResult
  (chain : list (Request -> list ValidationError)) (req : Request)
  : list ValidationError :=
  flat_map (fun c => c req) chain.

Definition isEmpty (errors : list ValidationError) : bool :=
  match errors with
  | [] => true
  | _ => false
  end.

(** ** The routes *)

(** [GET api/classroom/]: the caller's classrooms. *)
Definition router_get_root (req : Request) : Server -> Server * Response :=
  try_catch
    (classrooms ← Classroom_find [("joinedUsers", user_id req)];
     if negb (truthy classrooms)
     then mret (res_status_json 400 (VMsg "There is no classes for this user"))
     else mret (res_json classrooms))
    (fun err => res_status_send 500 "Server Error").

(** [POST api/classroom]: create a classroom.  [rnd] and [oid] are what
    the request draws from outside: the random numbers of the code
    generator and the fresh [_id]. *)
Definition router_post_root (rnd : nat -> nat) (oid : ObjectId)
  (req : Request) : Server -> Server * Response :=
  let title := body req !! "title" in
  let subject := body req !! "subject" in
  let subCode := body req !! "subCode" in
  let cover := body req !! "cover" in
  try_catch
    (author ← User_findById (user_id req);
     author_id ← lift (get_prop author "_id");
     let joinedUsers := [author_id] in
     let code := Randomatic.randomatic "aA0" 6 rnd in
     newClassroom ← lift (new_Classroom oid author title subject subCode
                            cover code joinedUsers);
     Classroom_save newClassroom;;
     mret (res_json (VClassroom newClassroom)))
    (fun err => res_status_send 500 "Server Error").

(** [GET api/classroom/:code]: one classroom, for its members. *)
Definition router_get_code (req : Request) : Server -> Server * Response :=
  try_catch
    (classroom ← Classroom_findOne
                   [("code", params_code req); ("joinedUsers", user_id req)];
     if negb (truthy classroom)
     then mret (res_status_json 400 (VMsg "Class does not exist."))
     else mret (res_json classroom))
    (fun err => res_status_send 500 "Server Error").

(** [POST api/classroom/:code]: join a classroom. *)
Definition router_post_code (req : Request) : Server -> Server * Response :=
  try_catch
    (classroom ← Classroom_findOne [("code", params_code req)];
     if negb (truthy classroom)
     then mret (res_status_json 400 (VMsg "Class does not exist."))
     else
       classroom_users ← lift (get_prop classroom "users");
       hit ← lift (array_find classroom_users
                     (fun user => loose_eq (VStr (user_id req)) user));
       if truthy hit
       then mret (res_status_json 400 (VMsg "Class already exist."))
       else
         joined ← Classroom_findOneAndUpdate [("code", params_code req)]
                    (UPush "joinedUsers" (user_id req));
         mret (res_json joined))
    (fun err => res_status_send 500 "Server Error").

(** [PATCH api/classroom/:code]: edit a classroom. *)
Definition router_patch_code (req : Request) : Server -> Server * Response :=
  fun srv =>
    let errors :=
      validationResult
        [check_notEmpty "title" "title is required";
         check_notEmpty "subject" "Subject is required";
         check_notEmpty "subcode" "Subcode is required"] req in
    if negb (isEmpty errors)
    then (srv, res_status_json 400 (VErrors errors))
    else
      let title := body req !! "title" in
      let subject := body req !! "subject" in
      let subcode := body req !! "subcode" in
      try_catch
        (classroom ← Classroom_findOne
                       [("code", params_code req);
                        ("joinedUsers", user_id req)];
         if negb (truthy classroom)
         then mret (res_status_json 400 (VMsg "Class does not exist."))
         else
           author ← lift (get_prop classroom "author");
           author_id ← lift (get_prop author "_id");
           if negb (loose_eq author_id (VStr (user_id req)))
           then mret (res_status_json 400 (VMsg "User not authorized."))
           else
             editedClass ← Classroom_findOneAndUpdate
                             [("code", params_code req)]
                             (USet [("title", title); ("subcode", subcode);
                                    ("subject", subject)]);
             mret (res_json editedClass))
        (fun err => res_status_send 500 "Server Error") srv.

(** [DELETE api/classroom/:code]: delete the classroom, or leave it. *)
Definition router_delete_code (req : Request) : Server -> Server * Response :=
  try_catch
    (classroom ← Classroom_findOne
                   [("code", params_code req); ("joinedUsers", user_id req)];
     if negb (truthy classroom)
     then mret (res_status_json 400 (VMsg "Class does not exist."))
     else
       author ← lift (get_prop classroom "author");
       author_id ← lift (get_prop author "_id");
       if loose_eq author_id (VStr (user_id req))
       then
         Classroom_remove classroom;;
         mret (res_json (VMsg "Class deleted successfully."))
       else
         Classroom_findOneAndUpdate [("code", params_code req)]
           (UPullIn "joinedUsers" (VStr (user_id req)));;
         mret (res_json (VMsg "Class leaved successfully.")))
    (fun err => res_status_send 500 "Server Error").

(** [DELETE api/classroom/:code/:user]: remove a user from a classroom.
    The operand of [$in] is the string [req.params.user]; the cast that
    [findOneAndUpdate] applies to it is the step [cast_operand]. *)
Definition router_delete_code_user (req : Request)
  : Server -> Server * Response :=
  try_catch
    (classroom ← Classroom_findOne
                   [("code", params_code req); ("joinedUsers", user_id req)];
     if negb (truthy classroom)
     then mret (res_status_json 400 (VMsg "Class does not exist."))
     else
       author ← lift (get_prop classroom "author");
       author_id ← lift (get_prop author "_id");
       if negb (loose_eq author_id (VStr (user_id req)))
       then mret (res_status_json 400 (VMsg "User not authorized."))
       else
         target ← lift (cast_operand "joinedUsers" (params_user req));
         updatedClass ← Classroom_findOneAndUpdate
                          [("code", params_code req)]
                          (UPullIn "joinedUsers" target);
         mret (res_status_json 200 (VMsg "User Removed")))
    (fun error => res_status_json 500 (VMsg "Server error")).

(** [GET api/classroom/:code/users]: the members of a classroom. *)
Definition router_get_code_users (req : Request)
  : Server -> Server * Response :=
  try_catch
    (classroom ← Classroom_findOne
                   [("code", params_code req); ("joinedUsers", user_id req)];
     if negb (truthy classroom)
     then mret (res_status_json 400 (VMsg "Class does not exist."))
     else
       classroom_users ← lift (get_prop classroom "users");
       found ← User_find_id_in classroom_users;
       assign_global "constjoinedUsers" found;;
       users ← ident "users";
       mret (res_json users))
    (fun error => res_status_json 500 (VMsg "Server error")).

(** * The dashboard view: [client/src/components/dashboard/Dashboard.js]

    The component is a function of its props (the classroom list of the
    client store) and of its one piece of state, the visibility of the
    theme dialog.  The tree it returns is kept as data; the styling
    classes are kept as the names the source gives them. *)

Module View.
(** What a handler of the component does: it calls [setOpen(b)]. *)
Inductive Event :=
| SetOpen (b : bool).

#[global] Instance Event_eq_dec : EqDecision Event.
Proof. solve_decision. Defined.

#[local] Set Warnings "-register-all".
Inductive Element :=
| Node (tag : string) (props : list (string * string))
    (children : list Element)
| Text (s : string)
| ClassCard (key : string) (Class : Classroom.t)
| CreateIcon (onClick : Event)
| ThemeDialog (open : bool) (handleClose : Event)
| FloatingButton (text : string).

(** [React.useState(false)]. *)
Definition initial_open : bool := false.

Definition handleClickOpen : Event := SetOpen true.
Definition handleClose : Event := SetOpen false.

(** Running a handler on the state [open]. *)
Definition dispatch (e : Event) (open : bool) : bool :=
  match e with
  | SetOpen b => b
  end.

Definition Dashboard (classrooms : list Classroom.t) (open : bool)
  : Element :=
  Node "Container" [("className", "root")]
    [(if negb (Nat.eqb (length classrooms) 0)
      then
        Node "Grid"
          [("container", "true"); ("className", "classContainer");
           ("spacing", "5")]
          (List.map
             (fun classroom => ClassCard (Classroom.code classroom) classroom)
             classrooms)
      else
        Node "Grid"
          [("container", "true"); ("justify", "center"); ("spacing", "5")]
          [Node "div" [("className", "noClass")]
             [Node "footer" [("className", "text")]
                [Node "Typography" [("variant", "h4"); ("color", "white")]
                   [Text "No classes here!"];
                 Node "Typography"
                   [("variant", "subtitle1"); ("color", "white")]
                   [Text "Create a new class or join class."]]]]);
     Node "Tooltip" [("title", "Change Theme")] [CreateIcon handleClickOpen];
     ThemeDialog open handleClose;
     FloatingButton "Add Classroom"].

(** The class cards of a tree, with their keys, in document order. *)
Fixpoint cards (e : Element) : list (string * Classroom.t) :=
  match e with
  | Node _ _ children => flat_map cards children
  | ClassCard key Class => [(key, Class)]
  | _ => []
  end.

(** The texts of a tree, in document order. *)
Fixpoint texts (e : Element) : list string :=
  match e with
  | Node _ _ children => flat_map texts children
  | Text s => [s]
  | _ => []
  end.

(** The handlers a user can trigger in a tree: a click on the icon, and
    the close callback of the dialog. *)
Fixpoint handlers (e : Element) : list Event :=
  match e with
  | Node _ _ children => flat_map handlers children
  | CreateIcon onClick => [onClick]
  | ThemeDialog _ handleClose => [handleClose]
  | _ => []
  end.

(** The [open] prop of the theme dialogs of a tree. *)
Fixpoint dialogs (e : Element) : list bool :=
  match e with
  | Node _ _ children => flat_map dialogs children
  | ThemeDialog open _ => [open]
  | _ => []
  end.

(** The state after a run of handlers, from the initial state. *)
Definition run (events : list Event) : bool :=
  fold_left (fun open e => dispatch e open) events initial_open.
End View.

(** * The vocabulary of the statements *)

(** ** Invariants of the store

    [unique_codes] is the invariant of the data model that a join code
    names one classroom; [unique_ids] is the primary-key constraint of the
    document store. *)

Definition unique_codes (srv : Server) : Prop :=
  NoDup (Classroom.code <$> classrooms srv).

Definition unique_ids (srv : Server) : Prop :=
  NoDup (Classroom._id <$> classrooms srv).

(** The classroom [c] is a record of the store, and [u] is one of its
    members. *)
Definition stored (srv : Server) (c : Classroom.t) : Prop :=
  c ∈ classrooms srv.

Definition member (u : ObjectId) (c : Classroom.t) : Prop :=
  u ∈ Classroom.joinedUsers c.

#[export] Instance member_dec (u : ObjectId) (c : Classroom.t) :
  Decision (member u c).
Proof. unfold member. apply _. Defined.

(** ** What the routes read and write *)

(** The classroom [c] has the code of the request and the caller among
    its members. *)
Definition visible (srv : Server) (req : Request) (c : Classroom.t) : Prop :=
  stored srv c /\ Classroom.code c = params_code req
  /\ member (user_id req) c.

(** The characters a-z, A-Z and 0-9. *)
Definition alphanumeric (ch : ascii) : bool :=
  let n := nat_of_ascii ch in
  Nat.leb 48 n && Nat.leb n 57 || Nat.leb 65 n && Nat.leb n 90
  || Nat.leb 97 n && Nat.leb n 122.

(** The mask of the pattern ['aA0']. *)
Definition join_code_mask : string :=
  "abcdefghijklmnopqrstuvwxyzABCDEFGHIJKLMNOPQRSTUVWXYZ0123456789".

(** The record the create route builds for a caller. *)
Definition created (rnd : nat -> nat) (oid : ObjectId) (req : Request)
  : Classroom.t :=
  Classroom.mk oid (Randomatic.randomatic "aA0" 6 rnd)
    (body req !! "title") (body req !! "subject") (body req !! "subCode")
    (body req !! "cover") (user_id req) [user_id req].

(** The test behind [notEmpty()], on a field that may be missing. *)
Definition notEmpty (o : option string) : bool :=
  match o with
  | Some s => negb (String.eqb s "")
  | None => false
  end.

(** The body passes the three checks of the edit route: [title],
    [subject] and [subcode] are present and not empty. *)
Definition edit_body_valid (req : Request) : bool :=
  notEmpty (body req !! "title") && notEmpty (body req !! "subject")
  && notEmpty (body req !! "subcode").

(** [validationResult(req).array()] in the edit route. *)
Definition edit_errors (req : Request) : list ValidationError :=
  validationResult
    [check_notEmpty "title" "title is required";
     check_notEmpty "subject" "Subject is required";
     check_notEmpty "subcode" "Subcode is required"] req.

(** What the [$set] of the edit route does to a record: [title] and
    [subject] are written, and the path [subcode], which the schema does
    not declare, is dropped. *)
Definition edited (req : Request) (c : Classroom.t) : Classroom.t :=
  Classroom.mk (Classroom._id c) (Classroom.code c) (body req !! "title")
    (body req !! "subject") (Classroom.subCode c) (Classroom.cover c)
    (Classroom.author c) (Classroom.joinedUsers c).

(** The record [c] once [u] has been pulled from its [joinedUsers]. *)
Definition left_by (u : ObjectId) (c : Classroom.t) : Classroom.t :=
  with_joinedUsers c (pull_in (VStr u) (Classroom.joinedUsers c)).

(** Every stored record lists its author among its members. *)
Definition author_is_member (srv : Server) : Prop :=
  forall d, stored srv d -> member (Classroom.author d) d.

(** ** The router

    The eight routes, and the dispatch of a request to its handler. *)

Inductive Route :=
| GetRoot
| PostRoot (rnd : nat -> nat) (oid : ObjectId)
| GetCode
| PostCode
| PatchCode
| DeleteCode
| DeleteCodeUser
| GetCodeUsers.

Definition handle (r : Route) (req : Request)
  : Server -> Server * Response :=
  match r with
  | GetRoot => router_get_root req
  | PostRoot rnd oid => router_post_root rnd oid req
  | GetCode => router_get_code req
  | PostCode => router_post_code req
  | PatchCode => router_patch_code req
  | DeleteCode => router_delete_code req
  | DeleteCodeUser => router_delete_code_user req
  | GetCodeUsers => router_get_code_users req
  end.

(** The create route is the only one that adds a record. *)
Definition is_create (r : Route) : bool :=
  match r with
  | PostRoot _ _ => true
  | _ => false
  end.

(** An update never touches the key paths of a record. *)
Definition same_keys (c c' : Classroom.t) : Prop :=
  Classroom._id c' = Classroom._id c
  /\ Classroom.code c' = Classroom.code c
  /\ Classroom.author c' = Classroom.author c.

(** What the create route draws is not in use yet: the join code, which
    the route does not check, and the [_id], which the store does. *)
Definition draws_fresh (r : Route) (srv : Server) : Prop :=
  match r with
  | PostRoot rnd oid =>
      (Randomatic.randomatic "aA0" 6 rnd ∉ Classroom.code <$> classrooms srv)
      /\ (oid ∉ Classroom._id <$> classrooms srv)
  | _ => True
  end.

(** ** The shape of a request's effect on the collection

    What a request can do to the Classroom collection: nothing, insert the
    record the create route builds, update the first match of a filter
    with an update that is no [$push], or delete by [_id] a record that the
    caller is both a member and the author of. *)

Definition shrinking (u : Update) : bool :=
  match u with
  | UPush _ _ => false
  | _ => true
  end.

Inductive effect (r : Route) (req : Request)
  (before after : list Classroom.t) : Prop :=
| effect_none :
    after = before -> effect r req before after
| effect_insert (rnd : nat -> nat) (oid : ObjectId) :
    r = PostRoot rnd oid ->
    after = before ++ [created rnd oid req] -> effect r req before after
| effect_update (q : Query) (u : Update) :
    shrinking u = true ->
    after = fst (update_first (matches q) (apply_update u) before) ->
    effect r req before after
| effect_delete (c : Classroom.t) :
    c ∈ before -> member (user_id req) c ->
    Classroom.author c = user_id req ->
    after = delete_first
              (fun d => String.eqb (Classroom._id d) (Classroom._id c))
              before ->
    effect r req before after.

(** The record [d'] is the record [d] after some requests: the same key
    paths, and no member that [d] did not have. *)
Definition descends (d d' : Classroom.t) : Prop :=
  same_keys d d'
  /\ forall u, member u d' -> member u d.

(** A record nobody can act on as its author: the author is not among
    the members. *)
Definition orphaned (c : Classroom.t) : Prop :=
  ~ member (Classroom.author c) c.

(** ** Sample stores *)

Module Sample.
Definition alice : User.t := User.mk "u1" [("name", "Alice")] (Some "pw1").
Definition bob : User.t := User.mk "u2" [("name", "Bob")] (Some "pw2").
Definition carol : User.t := User.mk "u3" [("name", "Carol")] (Some "pw3").

(** Alice's classroom, which Bob has joined. *)
Definition algebra : Classroom.t :=
  Classroom.mk "c1" "abc123" (Some "Algebra") (Some "Math") (Some "M101")
    None "u1" ["u1"; "u2"].

Definition srv : Server := mkServer [algebra] [alice; bob; carol] ∅.

Definition request (caller code target : string)
  (fields : list (string * string)) : Request :=
  mkRequest caller code target (list_to_map fields).
End Sample.

(** A store whose references are spelt as ObjectIds are: Dana's
    classroom, which Eli has joined; Finn is a user and no member. *)
Module Hex.
Definition dana : User.t :=
  User.mk "5f1a2b3c4d5e6f7a8b9c0da1" [("name", "Dana")] (Some "pw4").
Definition eli : User.t :=
  User.mk "5f1a2b3c4d5e6f7a8b9c0da2" [("name", "Eli")] (Some "pw5").
Definition finn : User.t :=
  User.mk "5f1a2b3c4d5e6f7a8b9c0da3" [("name", "Finn")] (Some "pw6").

Definition physics : Classroom.t :=
  Classroom.mk "5f1a2b3c4d5e6f7a8b9c0dc1" "Zx81Qa" (Some "Physics")
    (Some "Science") (Some "P201") None "5f1a2b3c4d5e6f7a8b9c0da1"
    ["5f1a2b3c4d5e6f7a8b9c0da1"; "5f1a2b3c4d5e6f7a8b9c0da2"].

Definition srv : Server := mkServer [physics] [dana; eli; finn] ∅.
End Hex.

(** Two records that share a join code. *)
Module Shared.
Definition first : Classroom.t :=
  Classroom.mk "c1" "abc123" (Some "Algebra") None None None "u1" ["u1"].
Definition second : Classroom.t :=
  Classroom.mk "c2" "abc123" (Some "Biology") None None None "u2"
    ["u2"; "u3"].
Definition srv : Server := mkServer [first; second] [] ∅.
End Shared.

(** * Properties *)

(** ** Filters *)

Lemma existsb_eqb_elem (x : string) (l : list string) :
  existsb (String.eqb x) l = true <-> x ∈ l.
Proof.
  rewrite existsb_exists, list_elem_of_In. split.
  - intros (y & Hy & Heq). apply String.eqb_eq in Heq. by subst.
  - intros Hx. exists x. split; [done | apply String.eqb_refl].
Qed.

Lemma matches_member (u : ObjectId) (c : Classroom.t) :
  matches [("joinedUsers", u)] c = true <-> u ∈ Classroom.joinedUsers c.
Proof.
  unfold matches, matches_cond; cbn.
  rewrite andb_true_r. apply existsb_eqb_elem.
Qed.

Lemma matches_code (k : string) (c : Classroom.t) :
  matches [("code", k)] c = true <-> Classroom.code c = k.
Proof.
  unfold matches, matches_cond; cbn.
  rewrite andb_true_r. apply String.eqb_eq.
Qed.

Lemma matches_code_member (k : string) (u : ObjectId) (c : Classroom.t) :
  matches [("code", k); ("joinedUsers", u)] c = true
  <-> Classroom.code c = k /\ u ∈ Classroom.joinedUsers c.
Proof.
  unfold matches, matches_cond; cbn.
  rewrite andb_true_r, andb_true_iff, String.eqb_eq, existsb_eqb_elem.
  done.
Qed.

(** ** First matches in a collection *)

Lemma find_none_iff {A} (p : A -> bool) (l : list A) :
  List.find p l = None <-> forall d, d ∈ l -> p d = false.
Proof.
  split.
  - intros H d Hd. apply list_elem_of_In in Hd.
    exact (find_none p l H d Hd).
  - induction l as [|c l IH]; intros H; [done|]. cbn.
    rewrite (H c) by constructor. apply IH. intros d Hd.
    apply H. by constructor.
Qed.

Section FirstMatch.
Context (p : Classroom.t -> bool).

Lemma find_some_split (l : list Classroom.t) (c : Classroom.t) :
  List.find p l = Some c ->
  exists l1 l2, l = l1 ++ c :: l2 /\ p c = true
                /\ forall d, d ∈ l1 -> p d = false.
Proof.
  induction l as [|d l IH]; [done|]. cbn.
  destruct (p d) eqn:Hd.
  - intros [= ->]. exists [], l. split_and!; [done..|]. intros d Hin.
    by apply elem_of_nil in Hin.
  - intros (l1 & l2 & -> & Hc & Hl1)%IH. exists (d :: l1), l2.
    split_and!; [done..|]. intros e [->|He]%elem_of_cons; auto.
Qed.

Lemma find_split (l1 l2 : list Classroom.t) (c : Classroom.t) :
  p c = true -> (forall d, d ∈ l1 -> p d = false) ->
  List.find p (l1 ++ c :: l2) = Some c.
Proof.
  intros Hc. induction l1 as [|d l1 IH]; intros Hl1; cbn.
  - by rewrite Hc.
  - rewrite (Hl1 d) by constructor. apply IH. intros e He.
    apply Hl1. by constructor.
Qed.

Lemma update_first_split (f : Classroom.t -> Classroom.t)
  (l1 l2 : list Classroom.t) (c : Classroom.t) :
  p c = true -> (forall d, d ∈ l1 -> p d = false) ->
  update_first p f (l1 ++ c :: l2) = (l1 ++ f c :: l2, Some (f c)).
Proof.
  intros Hc. induction l1 as [|d l1 IH]; intros Hl1; cbn.
  - by rewrite Hc.
  - rewrite (Hl1 d) by constructor. rewrite IH; [done|]. intros e He.
    apply Hl1. by constructor.
Qed.

Lemma delete_first_split (l1 l2 : list Classroom.t) (c : Classroom.t) :
  p c = true -> (forall d, d ∈ l1 -> p d = false) ->
  delete_first p (l1 ++ c :: l2) = l1 ++ l2.
Proof.
  intros Hc. induction l1 as [|d l1 IH]; intros Hl1; cbn.
  - by rewrite Hc.
  - rewrite (Hl1 d) by constructor. rewrite IH; [done|]. intros e He.
    apply Hl1. by constructor.
Qed.

Lemma update_first_none (f : Classroom.t -> Classroom.t)
  (l : list Classroom.t) :
  (forall d, d ∈ l -> p d = false) -> update_first p f l = (l, None).
Proof.
  induction l as [|d l IH]; intros H; cbn; [done|].
  rewrite (H d) by constructor. rewrite IH; [done|]. intros e He.
  apply H. by constructor.
Qed.
End FirstMatch.

Lemma NoDup_fmap_split {A} (f : Classroom.t -> A)
  (l1 l2 : list Classroom.t) (c : Classroom.t) :
  NoDup (f <$> (l1 ++ c :: l2)) ->
  forall d, d ∈ l1 ++ l2 -> f d <> f c.
Proof.
  rewrite fmap_app, fmap_cons. intros H d Hd Heq.
  apply NoDup_app in H as (_ & H12 & H2).
  apply NoDup_cons in H2 as [Hc _].
  apply elem_of_app in Hd as [Hd|Hd].
  - apply (H12 (f c)).
    + rewrite <- Heq. by apply list_elem_of_fmap_2.
    + by constructor.
  - apply Hc. rewrite <- Heq. by apply list_elem_of_fmap_2.
Qed.

Lemma stored_split (l : list Classroom.t) (c : Classroom.t) :
  c ∈ l -> exists l1 l2, l = l1 ++ c :: l2.
Proof. apply list_elem_of_split. Qed.

(** ** Unfolding a handler *)

Ltac run_handler :=
  unfold try_catch, Classroom_find, Classroom_findOne,
    Classroom_findOneAndUpdate, Classroom_remove, Classroom_save,
    User_findById, User_find_id_in, ident, assign_global, lift,
    cast_operand, mbind, mret, Act_bind, Act_ret; cbn.

(** ** Listing the caller's classrooms *)

Lemma router_get_root_run (req : Request) (srv : Server) :
  router_get_root req srv
  = (srv, res_json (VClassrooms
       (List.filter (matches [("joinedUsers", user_id req)])
          (classrooms srv)))).
Proof. unfold router_get_root. by run_handler. Qed.

Lemma filter_none (p : Classroom.t -> bool) (l : list Classroom.t) :
  (forall d, d ∈ l -> p d = false) -> List.filter p l = [].
Proof.
  induction l as [|c l IH]; intros H; cbn; [done|].
  rewrite (H c) by constructor. apply IH. intros d Hd.
  apply H. by constructor.
Qed.

(** C7: for a caller who is a member of no classroom, the list operation
    leaves the store alone and answers with status 200 and the empty list:
    the array that [Classroom.find] yields is truthy even when empty, so
    the branch that reports "no classes" is not taken. *)
Theorem list_of_non_member_is_empty_success (req : Request) (srv : Server) :
  (forall c, stored srv c -> ~ member (user_id req) c) ->
  router_get_root req srv = (srv, mkResponse 200 (Json (VClassrooms []))).
Proof.
  intros Hnone. rewrite router_get_root_run. do 2 f_equal.
  unfold res_json. do 3 f_equal. apply filter_none. intros d Hd.
  apply not_true_is_false. rewrite matches_member. by apply Hnone.
Qed.

Lemma list_of_non_member_is_empty_success_witness :
  router_get_root (Sample.request "u3" "" "" []) Sample.srv
  = (Sample.srv, mkResponse 200 (Json (VClassrooms []))).
Proof.
  apply list_of_non_member_is_empty_success.
  intros c Hc Hm. unfold stored, member in *. cbn in Hc.
  apply list_elem_of_singleton in Hc. subst c.
  apply list_elem_of_In in Hm. cbn in Hm. intuition discriminate.
Defined.

(** ** Reading a classroom by its code *)

Lemma router_get_code_run (req : Request) (srv : Server) :
  router_get_code req srv
  = (srv,
     match List.find
             (matches [("code", params_code req);
                       ("joinedUsers", user_id req)])
             (classrooms srv) with
     | Some c => res_json (VClassroom c)
     | None => res_status_json 400 (VMsg "Class does not exist.")
     end).
Proof.
  unfold router_get_code. run_handler.
  by destruct (List.find _ _).
Qed.

(** C8: reading a classroom by code never changes the store; it answers
    with a record only when that record is stored, carries the code and
    lists the caller as a member; it does answer with such a record
    whenever one exists; and in every other case, whether no classroom has
    the code or the caller is not a member, the answer is the one error
    "Class does not exist." with status 400. *)
Theorem get_by_code_is_membership_gated (req : Request) (srv : Server) :
  fst (router_get_code req srv) = srv
  /\ (forall c, snd (router_get_code req srv) = res_json (VClassroom c) ->
                visible srv req c)
  /\ ((exists c, visible srv req c) ->
      exists c, visible srv req c
                /\ snd (router_get_code req srv) = res_json (VClassroom c))
  /\ (~ (exists c, visible srv req c) ->
      snd (router_get_code req srv)
      = mkResponse 400 (Json (VMsg "Class does not exist."))).
Proof.
  rewrite router_get_code_run; cbn.
  destruct (List.find _ _) as [c0|] eqn:Hfind.
  - assert (Hvis : visible srv req c0).
    { apply find_some in Hfind as [Hin Hm].
      apply matches_code_member in Hm as [Hcode Hmem].
      split_and!; [by apply list_elem_of_In | done..]. }
    split_and!; [done | | | ].
    + by intros c [= <-].
    + intros _. by exists c0.
    + intros Hno. destruct Hno. by exists c0.
  - split_and!; [done | done | | done].
    intros (c & Hin & Hcode & Hmem).
    rewrite find_none_iff in Hfind.
    specialize (Hfind c Hin).
    assert (matches [("code", params_code req);
                     ("joinedUsers", user_id req)] c = true) as Hm
      by by apply matches_code_member.
    congruence.
Qed.

(** ** The join code *)

Lemma mask_of_aA0 : Randomatic.mask_of "aA0" = join_code_mask.
Proof. reflexivity. Qed.

Lemma charAt_join_code_mask (k : nat) :
  k < 62 ->
  exists ch, Randomatic.charAt join_code_mask k = String ch EmptyString
             /\ alphanumeric ch = true.
Proof.
  intros Hk.
  do 62 (destruct k as [|k]; [eexists; split; reflexivity|]).
  lia.
Qed.

Lemma draw_join_code_mask (rnd : nat -> nat) (len i : nat) :
  String.length (Randomatic.draw join_code_mask rnd len i) = len
  /\ Forall (fun ch => alphanumeric ch = true)
       (list_ascii_of_string (Randomatic.draw join_code_mask rnd len i)).
Proof.
  revert i. induction len as [|n IH]; intros i; cbn [Randomatic.draw].
  - by split.
  - destruct (charAt_join_code_mask (rnd i mod 62)) as (ch & Hch & Hal).
    { apply Nat.mod_upper_bound. lia. }
    change (String.length join_code_mask) with 62.
    rewrite Hch. destruct (IH (S i)) as [Hlen Hall].
    simpl. split; [by f_equal | by constructor].
Qed.

Lemma randomatic_aA0_6 (rnd : nat -> nat) :
  String.length (Randomatic.randomatic "aA0" 6 rnd) = 6
  /\ Forall (fun ch => alphanumeric ch = true)
       (list_ascii_of_string (Randomatic.randomatic "aA0" 6 rnd)).
Proof.
  unfold Randomatic.randomatic. rewrite mask_of_aA0.
  apply draw_join_code_mask.
Qed.

(** ** Creating a classroom *)

Lemma router_post_root_run (rnd : nat -> nat) (oid : ObjectId)
  (req : Request) (srv : Server) :
  router_post_root rnd oid req srv
  = match List.find (fun u => String.eqb (User._id u) (user_id req))
            (users srv) with
    | Some _ =>
        (set_classrooms srv (classrooms srv ++ [created rnd oid req]),
         res_json (VClassroom (created rnd oid req)))
    | None => (srv, res_status_send 500 "Server Error")
    end.
Proof.
  unfold router_post_root. run_handler.
  destruct (List.find _ _) as [u|] eqn:Hfind; cbn; [|done].
  apply find_some in Hfind as [_ Heq]. apply String.eqb_eq in Heq.
  unfold created. by rewrite Heq.
Qed.

(** C6: when the caller's identity record exists, the create route stores
    one new record and returns it; its author is the caller, its
    [joinedUsers] is the one-element list of the caller, and its display
    fields are those of the request body, whatever they are. *)
Theorem create_sets_author_and_sole_member (rnd : nat -> nat)
  (oid : ObjectId) (req : Request) (srv : Server) (u : User.t) :
  u ∈ users srv -> User._id u = user_id req ->
  exists c,
    router_post_root rnd oid req srv
    = (set_classrooms srv (classrooms srv ++ [c]),
       mkResponse 200 (Json (VClassroom c)))
    /\ Classroom.author c = user_id req
    /\ Classroom.joinedUsers c = [user_id req]
    /\ Classroom.title c = body req !! "title"
    /\ Classroom.subject c = body req !! "subject"
    /\ Classroom.subCode c = body req !! "subCode"
    /\ Classroom.cover c = body req !! "cover".
Proof.
  intros Hu Hid. exists (created rnd oid req).
  rewrite router_post_root_run.
  destruct (List.find _ _) eqn:Hfind; [by split_and!|].
  rewrite find_none_iff in Hfind.
  specialize (Hfind u Hu). cbn in Hfind.
  rewrite Hid, String.eqb_refl in Hfind. discriminate.
Qed.

Lemma create_sets_author_and_sole_member_witness :
  exists c,
    router_post_root (fun i => i * 7) "c2"
      (Sample.request "u3" "" "" [("title", "Algebra"); ("subject", "Math");
                                  ("subCode", "M101")])
      Sample.srv
    = (set_classrooms Sample.srv (classrooms Sample.srv ++ [c]),
       mkResponse 200 (Json (VClassroom c)))
    /\ Classroom.author c = "u3"
    /\ Classroom.joinedUsers c = ["u3"]
    /\ Classroom.title c = Some "Algebra"
    /\ Classroom.subject c = Some "Math"
    /\ Classroom.subCode c = Some "M101"
    /\ Classroom.cover c = None.
Proof.
  apply (create_sets_author_and_sole_member (fun i => i * 7) "c2"
           (Sample.request "u3" "" ""
              [("title", "Algebra"); ("subject", "Math"); ("subCode", "M101")])
           Sample.srv Sample.carol).
  - apply list_elem_of_In. cbn. auto.
  - reflexivity.
Defined.

(** C9: a record the create route answers with has a join code of exactly
    six characters, each of them one of a-z, A-Z, 0-9. *)
Theorem created_code_is_six_alphanumerics (rnd : nat -> nat)
  (oid : ObjectId) (req : Request) (srv : Server) (c : Classroom.t) :
  snd (router_post_root rnd oid req srv) = res_json (VClassroom c) ->
  String.length (Classroom.code c) = 6
  /\ Forall (fun ch => alphanumeric ch = true)
       (list_ascii_of_string (Classroom.code c)).
Proof.
  rewrite router_post_root_run.
  destruct (List.find _ _); cbn; [|done].
  intros [= <-]. cbn. apply randomatic_aA0_6.
Qed.

Lemma created_code_is_six_alphanumerics_witness :
  String.length
    (Classroom.code (created (fun i => i * 7) "c2"
                       (Sample.request "u3" "" "" [("title", "Algebra")])))
  = 6
  /\ Forall (fun ch => alphanumeric ch = true)
       (list_ascii_of_string
          (Classroom.code (created (fun i => i * 7) "c2"
                             (Sample.request "u3" "" ""
                                [("title", "Algebra")])))).
Proof.
  apply (created_code_is_six_alphanumerics (fun i => i * 7) "c2"
           (Sample.request "u3" "" "" [("title", "Algebra")]) Sample.srv).
  reflexivity.
Defined.

(** ** Records located by a unique code *)

Lemma unique_code_split (srv : Server) (c : Classroom.t) :
  unique_codes srv -> stored srv c ->
  exists l1 l2,
    classrooms srv = l1 ++ c :: l2
    /\ forall d, d ∈ l1 ++ l2 -> Classroom.code d <> Classroom.code c.
Proof.
  unfold unique_codes, stored. intros Hnd Hin.
  destruct (stored_split _ _ Hin) as (l1 & l2 & Heq).
  exists l1, l2. split; [done|]. rewrite Heq in Hnd.
  by apply NoDup_fmap_split.
Qed.

Lemma other_code_no_match (k : string) (q : Query) (d : Classroom.t) :
  Classroom.code d <> k -> matches (("code", k) :: q) d = false.
Proof.
  intros Hne. unfold matches, matches_cond. cbn.
  apply String.eqb_neq in Hne. by rewrite Hne.
Qed.

(** Under [unique_codes], the membership-gated lookup and the lookup by
    code alone both stop at the record [c]. *)
Lemma find_gated (srv : Server) (req : Request) (c : Classroom.t)
  (l1 l2 : list Classroom.t) :
  classrooms srv = l1 ++ c :: l2 ->
  (forall d, d ∈ l1 ++ l2 -> Classroom.code d <> Classroom.code c) ->
  Classroom.code c = params_code req -> member (user_id req) c ->
  List.find (matches [("code", params_code req);
                      ("joinedUsers", user_id req)]) (classrooms srv)
  = Some c.
Proof.
  intros -> Hother Hcode Hmem. apply find_split.
  - by apply matches_code_member.
  - intros d Hd. apply other_code_no_match. rewrite <- Hcode.
    apply Hother, elem_of_app. by left.
Qed.

Lemma update_by_code (f : Classroom.t -> Classroom.t) (k : string)
  (c : Classroom.t) (l1 l2 : list Classroom.t) :
  (forall d, d ∈ l1 ++ l2 -> Classroom.code d <> Classroom.code c) ->
  Classroom.code c = k ->
  update_first (matches [("code", k)]) f (l1 ++ c :: l2)
  = (l1 ++ f c :: l2, Some (f c)).
Proof.
  intros Hother Hcode. apply update_first_split.
  - by apply matches_code.
  - intros d Hd. apply other_code_no_match. rewrite <- Hcode.
    apply Hother, elem_of_app. by left.
Qed.

Lemma eqb_decide (a b : string) : String.eqb a b = bool_decide (a = b).
Proof.
  case_bool_decide as H.
  - by apply String.eqb_eq.
  - by apply String.eqb_neq.
Qed.

(** ** Editing a classroom *)

Lemma check_notEmpty_spec (field message : string) (req : Request) :
  check_notEmpty field message req
  = if notEmpty (body req !! field) then []
    else [mkValidationError field message].
Proof.
  unfold check_notEmpty, notEmpty.
  destruct (body req !! field) as [s|]; [|done].
  by destruct (String.eqb s "").
Qed.

Lemma edit_errors_valid (req : Request) :
  isEmpty (edit_errors req) = edit_body_valid req.
Proof.
  unfold edit_errors, validationResult, edit_body_valid. cbn.
  rewrite !check_notEmpty_spec.
  by destruct (notEmpty (body req !! "title")),
    (notEmpty (body req !! "subject")), (notEmpty (body req !! "subcode")).
Qed.

Lemma apply_edit (req : Request) (c : Classroom.t) :
  apply_update
    (USet [("title", body req !! "title"); ("subcode", body req !! "subcode");
           ("subject", body req !! "subject")]) c
  = edited req c.
Proof. reflexivity. Qed.

Lemma router_patch_code_invalid (req : Request) (srv : Server) :
  edit_body_valid req = false ->
  router_patch_code req srv
  = (srv, res_status_json 400 (VErrors (edit_errors req))).
Proof.
  intros Hinv. unfold router_patch_code. fold (edit_errors req).
  by rewrite edit_errors_valid, Hinv.
Qed.

Lemma router_patch_code_run (req : Request) (srv : Server)
  (c : Classroom.t) (l1 l2 : list Classroom.t) :
  classrooms srv = l1 ++ c :: l2 ->
  (forall d, d ∈ l1 ++ l2 -> Classroom.code d <> Classroom.code c) ->
  Classroom.code c = params_code req -> member (user_id req) c ->
  edit_body_valid req = true ->
  router_patch_code req srv
  = if bool_decide (Classroom.author c = user_id req)
    then (set_classrooms srv (l1 ++ edited req c :: l2),
          res_json (VClassroom (edited req c)))
    else (srv, res_status_json 400 (VMsg "User not authorized.")).
Proof.
  intros Hsplit Hother Hcode Hmem Hvalid.
  unfold router_patch_code. fold (edit_errors req).
  rewrite edit_errors_valid, Hvalid. run_handler.
  rewrite (find_gated srv req c l1 l2) by done. cbn.
  rewrite eqb_decide. case_bool_decide; cbn; [|done].
  rewrite Hsplit, (update_by_code _ _ c) by done.
  by rewrite apply_edit.
Qed.

(** C3: an edit by the author with non-empty [title], [subject] and
    [subcode] answers with the updated record, in which [title] and
    [subject] are those of the body while [subCode] is what it was: the
    route writes the path [subcode], not the field [subCode] that the
    create route fills. *)
Theorem edit_by_author_leaves_subCode (req : Request) (srv : Server)
  (c : Classroom.t) :
  unique_codes srv -> stored srv c ->
  Classroom.code c = params_code req -> member (user_id req) c ->
  Classroom.author c = user_id req -> edit_body_valid req = true ->
  exists c',
    snd (router_patch_code req srv) = mkResponse 200 (Json (VClassroom c'))
    /\ stored (fst (router_patch_code req srv)) c'
    /\ Classroom.title c' = body req !! "title"
    /\ Classroom.subject c' = body req !! "subject"
    /\ Classroom.subCode c' = Classroom.subCode c.
Proof.
  intros Huniq Hin Hcode Hmem Hauthor Hvalid.
  destruct (unique_code_split srv c Huniq Hin) as (l1 & l2 & Hsplit & Hother).
  rewrite (router_patch_code_run req srv c l1 l2) by done.
  rewrite bool_decide_eq_true_2 by done. cbn.
  exists (edited req c). split_and!; [done| |done..].
  unfold stored. cbn. apply elem_of_app. right. by constructor.
Qed.

Lemma edit_by_author_leaves_subCode_witness :
  exists c',
    snd (router_patch_code
           (Sample.request "u1" "abc123" ""
              [("title", "Algebra II"); ("subject", "Maths");
               ("subcode", "M102")])
           Sample.srv)
    = mkResponse 200 (Json (VClassroom c'))
    /\ stored (fst (router_patch_code
                      (Sample.request "u1" "abc123" ""
                         [("title", "Algebra II"); ("subject", "Maths");
                          ("subcode", "M102")])
                      Sample.srv)) c'
    /\ Classroom.title c' = Some "Algebra II"
    /\ Classroom.subject c' = Some "Maths"
    /\ Classroom.subCode c' = Some "M101".
Proof.
  apply (edit_by_author_leaves_subCode
           (Sample.request "u1" "abc123" ""
              [("title", "Algebra II"); ("subject", "Maths");
               ("subcode", "M102")])
           Sample.srv Sample.algebra).
  - unfold unique_codes. cbn. apply NoDup_singleton.
  - unfold stored. cbn. by constructor.
  - reflexivity.
  - unfold member. cbn. by constructor.
  - reflexivity.
  - reflexivity.
Defined.

(** The same request with the body key spelt [subCode], as the create
    route spells it, does not pass validation. *)
Lemma edit_with_subCode_key_is_invalid :
  router_patch_code
    (Sample.request "u1" "abc123" ""
       [("title", "Algebra II"); ("subject", "Maths"); ("subCode", "M102")])
    Sample.srv
  = (Sample.srv,
     mkResponse 400
       (Json (VErrors [mkValidationError "subcode" "Subcode is required"]))).
Proof. reflexivity. Qed.

(** C5, as stated, fails: Bob is a member of Alice's classroom and not its
    author, and his edit request with an empty title is answered with the
    validation errors, not with "User not authorized.". *)
Lemma edit_by_non_author_with_empty_title :
  stored Sample.srv Sample.algebra
  /\ member "u2" Sample.algebra
  /\ Classroom.author Sample.algebra <> "u2"
  /\ snd (router_patch_code
            (Sample.request "u2" "abc123" ""
               [("title", ""); ("subject", "Maths"); ("subcode", "M102")])
            Sample.srv)
     = mkResponse 400
         (Json (VErrors [mkValidationError "title" "title is required"]))
  /\ snd (router_patch_code
            (Sample.request "u2" "abc123" ""
               [("title", ""); ("subject", "Maths"); ("subcode", "M102")])
            Sample.srv)
     <> mkResponse 400 (Json (VMsg "User not authorized.")).
Proof.
  split_and!.
  - unfold stored. cbn. by constructor.
  - unfold member. cbn. apply list_elem_of_In. cbn. auto.
  - discriminate.
  - reflexivity.
  - discriminate.
Qed.

(** C5, amended: for a member who is not the author, an edit request never
    changes the store; when its [title], [subject] and [subcode] are
    non-empty the answer is "User not authorized." with status 400, and
    otherwise it is the list of validation errors with status 400. *)
Theorem edit_by_non_author_is_refused (req : Request) (srv : Server)
  (c : Classroom.t) :
  unique_codes srv -> stored srv c ->
  Classroom.code c = params_code req -> member (user_id req) c ->
  Classroom.author c <> user_id req ->
  fst (router_patch_code req srv) = srv
  /\ (edit_body_valid req = true ->
      snd (router_patch_code req srv)
      = mkResponse 400 (Json (VMsg "User not authorized.")))
  /\ (edit_body_valid req = false ->
      edit_errors req <> []
      /\ snd (router_patch_code req srv)
         = mkResponse 400 (Json (VErrors (edit_errors req)))).
Proof.
  intros Huniq Hin Hcode Hmem Hauthor.
  destruct (unique_code_split srv c Huniq Hin) as (l1 & l2 & Hsplit & Hother).
  destruct (edit_body_valid req) eqn:Hvalid.
  - rewrite (router_patch_code_run req srv c l1 l2) by done.
    rewrite bool_decide_eq_false_2 by done. by split_and!.
  - rewrite router_patch_code_invalid by done. split_and!; [done..|].
    intros _. split; [|done]. intros Hnil.
    pose proof (edit_errors_valid req) as He.
    rewrite Hnil, Hvalid in He. discriminate.
Qed.

Lemma edit_by_non_author_is_refused_witness :
  fst (router_patch_code
         (Sample.request "u2" "abc123" ""
            [("title", "Algebra II"); ("subject", "Maths");
             ("subcode", "M102")])
         Sample.srv)
  = Sample.srv
  /\ snd (router_patch_code
            (Sample.request "u2" "abc123" ""
               [("title", "Algebra II"); ("subject", "Maths");
                ("subcode", "M102")])
            Sample.srv)
     = mkResponse 400 (Json (VMsg "User not authorized.")).
Proof.
  destruct (edit_by_non_author_is_refused
              (Sample.request "u2" "abc123" ""
                 [("title", "Algebra II"); ("subject", "Maths");
                  ("subcode", "M102")])
              Sample.srv Sample.algebra) as (Hfst & Hvalid & _).
  - unfold unique_codes. cbn. apply NoDup_singleton.
  - unfold stored. cbn. by constructor.
  - reflexivity.
  - unfold member. apply list_elem_of_In. cbn. auto.
  - discriminate.
  - split; [exact Hfst | by apply Hvalid].
Defined.

(** ** Leaving, deleting and removing *)

Lemma elem_of_pull_in (u x : ObjectId) (l : list ObjectId) :
  x ∈ pull_in (VStr u) l <-> x ∈ l /\ x <> u.
Proof.
  unfold pull_in. rewrite list_elem_of_In, filter_In, <- list_elem_of_In.
  cbn. rewrite orb_false_r, negb_true_iff, String.eqb_neq. done.
Qed.

Lemma pull_in_absent (u : ObjectId) (l : list ObjectId) :
  u ∉ l -> pull_in (VStr u) l = l.
Proof.
  unfold pull_in. induction l as [|x l IH]; intros Hu; cbn; [done|].
  apply not_elem_of_cons in Hu as [Hne Hu].
  assert (String.eqb x u = false) as -> by by apply String.eqb_neq.
  cbn. f_equal. by apply IH.
Qed.

Lemma left_by_members (u x : ObjectId) (c : Classroom.t) :
  member x (left_by u c) <-> member x c /\ x <> u.
Proof. unfold member, left_by. cbn. apply elem_of_pull_in. Qed.

Lemma left_by_absent (u : ObjectId) (c : Classroom.t) :
  ~ member u c -> left_by u c = c.
Proof.
  unfold member, left_by, with_joinedUsers. intros Hu.
  rewrite pull_in_absent by done. by destruct c.
Qed.

Lemma set_classrooms_id (srv : Server) :
  set_classrooms srv (classrooms srv) = srv.
Proof. by destruct srv. Qed.

Lemma apply_pull (u : ObjectId) (c : Classroom.t) :
  apply_update (UPullIn "joinedUsers" (VStr u)) c = left_by u c.
Proof. reflexivity. Qed.

Lemma router_delete_code_run (req : Request) (srv : Server)
  (c : Classroom.t) (l1 l2 : list Classroom.t) :
  classrooms srv = l1 ++ c :: l2 ->
  (forall d, d ∈ l1 ++ l2 -> Classroom.code d <> Classroom.code c) ->
  (forall d, d ∈ l1 ++ l2 -> Classroom._id d <> Classroom._id c) ->
  Classroom.code c = params_code req -> member (user_id req) c ->
  router_delete_code req srv
  = if bool_decide (Classroom.author c = user_id req)
    then (set_classrooms srv (l1 ++ l2),
          res_json (VMsg "Class deleted successfully."))
    else (set_classrooms srv (l1 ++ left_by (user_id req) c :: l2),
          res_json (VMsg "Class leaved successfully.")).
Proof.
  intros Hsplit Hcodes Hids Hcode Hmem.
  unfold router_delete_code. run_handler.
  rewrite (find_gated srv req c l1 l2) by done. cbn.
  rewrite eqb_decide. case_bool_decide; cbn.
  - rewrite Hsplit, delete_first_split; [done|apply String.eqb_refl|].
    intros d Hd. apply String.eqb_neq, Hids, elem_of_app. by left.
  - rewrite Hsplit, (update_by_code _ _ c) by done.
    by rewrite apply_pull.
Qed.

Lemma apply_pull_id (t : ObjectId) (c : Classroom.t) :
  apply_update (UPullIn "joinedUsers" (VId t)) c = left_by t c.
Proof. reflexivity. Qed.

Lemma router_delete_code_user_run (req : Request) (srv : Server)
  (c : Classroom.t) (l1 l2 : list Classroom.t) :
  classrooms srv = l1 ++ c :: l2 ->
  (forall d, d ∈ l1 ++ l2 -> Classroom.code d <> Classroom.code c) ->
  Classroom.code c = params_code req -> member (user_id req) c ->
  router_delete_code_user req srv
  = if bool_decide (Classroom.author c = user_id req)
    then match cast_ObjectId (params_user req) with
         | Some t =>
             (set_classrooms srv (l1 ++ left_by t c :: l2),
              res_status_json 200 (VMsg "User Removed"))
         | None => (srv, res_status_json 500 (VMsg "Server error"))
         end
    else (srv, res_status_json 400 (VMsg "User not authorized.")).
Proof.
  intros Hsplit Hcodes Hcode Hmem.
  unfold router_delete_code_user. run_handler.
  rewrite (find_gated srv req c l1 l2) by done. cbn.
  rewrite eqb_decide. case_bool_decide; cbn; [|done].
  destruct (cast_ObjectId (params_user req)) as [t|]; cbn; [|done].
  rewrite Hsplit, (update_by_code _ _ c) by done.
  by rewrite apply_pull_id.
Qed.

Lemma get_code_after_removal (req : Request) (srv : Server)
  (l : list Classroom.t) :
  (forall d, d ∈ l -> Classroom.code d <> params_code req) ->
  snd (router_get_code req (set_classrooms srv l))
  = mkResponse 400 (Json (VMsg "Class does not exist.")).
Proof.
  intros Hnone. rewrite router_get_code_run. cbn.
  destruct (List.find _ _) as [d|] eqn:Hfind; [|done].
  apply find_some in Hfind as [Hin Hm].
  apply matches_code_member in Hm as [Hcode _].
  apply list_elem_of_In in Hin. by destruct (Hnone d Hin).
Qed.

(** C4: a delete request by a member.  When the member is the author the
    record is removed: no record with its code stays, every other record
    stays, and reading the code afterwards, by any caller, answers "Class
    does not exist.".  When the member is not the author the record stays
    with the caller pulled from [joinedUsers], every other member keeps
    the membership, and every other record stays.  The two answers carry
    different messages. *)
Theorem delete_removes_or_leaves (req : Request) (srv : Server)
  (c : Classroom.t) :
  unique_codes srv -> unique_ids srv -> stored srv c ->
  Classroom.code c = params_code req -> member (user_id req) c ->
  (Classroom.author c = user_id req ->
   snd (router_delete_code req srv)
   = mkResponse 200 (Json (VMsg "Class deleted successfully."))
   /\ ~ stored (fst (router_delete_code req srv)) c
   /\ (forall d, stored (fst (router_delete_code req srv)) d <->
                 stored srv d /\ d <> c)
   /\ (forall req', params_code req' = Classroom.code c ->
         snd (router_get_code req' (fst (router_delete_code req srv)))
         = mkResponse 400 (Json (VMsg "Class does not exist."))))
  /\ (Classroom.author c <> user_id req ->
      snd (router_delete_code req srv)
      = mkResponse 200 (Json (VMsg "Class leaved successfully."))
      /\ stored (fst (router_delete_code req srv)) (left_by (user_id req) c)
      /\ Classroom.joinedUsers (left_by (user_id req) c)
         = List.filter (fun x => negb (String.eqb x (user_id req)))
             (Classroom.joinedUsers c)
      /\ ~ member (user_id req) (left_by (user_id req) c)
      /\ (forall u, u <> user_id req ->
            (member u (left_by (user_id req) c) <-> member u c))
      /\ (forall d, d <> c -> stored srv d ->
            stored (fst (router_delete_code req srv)) d)).
Proof.
  intros Hcodes Hids Hin Hcode Hmem.
  destruct (unique_code_split srv c Hcodes Hin)
    as (l1 & l2 & Hsplit & Hother).
  assert (Hoid : forall d, d ∈ l1 ++ l2 ->
                           Classroom._id d <> Classroom._id c).
  { unfold unique_ids in Hids. rewrite Hsplit in Hids.
    by apply NoDup_fmap_split. }
  rewrite (router_delete_code_run req srv c l1 l2) by done.
  unfold stored. rewrite Hsplit. split; intros Hauthor.
  - rewrite bool_decide_eq_true_2 by done. cbn.
    assert (Hnot : c ∉ l1 ++ l2).
    { intros Hc. by apply (Hother c Hc). }
    split_and!; [done|done| |].
    + intros d. rewrite !elem_of_app, elem_of_cons. split.
      * intros Hd. split; [tauto|]. intros ->.
        apply Hnot, elem_of_app. tauto.
      * intros [Hd Hne]. tauto.
    + intros req' Hreq'. apply get_code_after_removal. by rewrite Hreq'.
  - rewrite bool_decide_eq_false_2 by done. cbn.
    split_and!; [done| | | | |].
    + apply elem_of_app. right. by constructor.
    + unfold pull_in. apply filter_ext. intros x. cbn.
      by rewrite orb_false_r.
    + rewrite left_by_members. tauto.
    + intros u Hu. rewrite left_by_members. tauto.
    + intros d Hne. rewrite !elem_of_app, !elem_of_cons. tauto.
Qed.

Lemma sample_unique_codes : unique_codes Sample.srv.
Proof. unfold unique_codes. cbn. apply NoDup_singleton. Defined.

Lemma sample_unique_ids : unique_ids Sample.srv.
Proof. unfold unique_ids. cbn. apply NoDup_singleton. Defined.

Lemma sample_stored : stored Sample.srv Sample.algebra.
Proof. unfold stored. cbn. apply list_elem_of_In. cbn. auto. Defined.

Lemma sample_member_alice : member "u1" Sample.algebra.
Proof. unfold member. apply list_elem_of_In. cbn. auto. Defined.

Lemma sample_member_bob : member "u2" Sample.algebra.
Proof. unfold member. apply list_elem_of_In. cbn. auto. Defined.

Lemma delete_removes_or_leaves_witness :
  (snd (router_delete_code (Sample.request "u1" "abc123" "" []) Sample.srv)
   = mkResponse 200 (Json (VMsg "Class deleted successfully."))
   /\ ~ stored
        (fst (router_delete_code (Sample.request "u1" "abc123" "" [])
                Sample.srv))
        Sample.algebra)
  /\ (snd (router_delete_code (Sample.request "u2" "abc123" "" []) Sample.srv)
      = mkResponse 200 (Json (VMsg "Class leaved successfully."))
      /\ stored
           (fst (router_delete_code (Sample.request "u2" "abc123" "" [])
                   Sample.srv))
           (left_by "u2" Sample.algebra)).
Proof.
  split.
  - destruct (delete_removes_or_leaves
                (Sample.request "u1" "abc123" "" []) Sample.srv Sample.algebra
                sample_unique_codes sample_unique_ids sample_stored
                eq_refl sample_member_alice) as [Hdel _].
    destruct (Hdel eq_refl) as (Hmsg & Hgone & _). by split.
  - destruct (delete_removes_or_leaves
                (Sample.request "u2" "abc123" "" []) Sample.srv Sample.algebra
                sample_unique_codes sample_unique_ids sample_stored
                eq_refl sample_member_bob) as [_ Hleave].
    destruct Hleave as (Hmsg & Hstays & _); [discriminate|]. by split.
Defined.

(** ** Removing a member *)

(** The create route keeps [author_is_member]: the record it adds has the
    caller as author and as sole member. *)
Lemma create_keeps_author_is_member (rnd : nat -> nat) (oid : ObjectId)
  (req : Request) (srv : Server) :
  author_is_member srv ->
  author_is_member (fst (router_post_root rnd oid req srv)).
Proof.
  intros Hinv. rewrite router_post_root_run.
  destruct (List.find _ _); cbn; [|done].
  intros d [Hd|Hd]%elem_of_app; [by apply Hinv|].
  apply list_elem_of_singleton in Hd as ->.
  unfold member. cbn. by constructor.
Qed.

(** C10, as stated, fails: the string zz names no member of Alice's
    classroom, and her remove-member request with that target is not
    answered "User Removed": the cast of the target fails and the catch
    block answers "Server error" with status 500. *)
Lemma remove_member_with_malformed_target :
  stored Sample.srv Sample.algebra
  /\ Classroom.author Sample.algebra = "u1"
  /\ ~ member "zz" Sample.algebra
  /\ router_delete_code_user (Sample.request "u1" "abc123" "zz" [])
       Sample.srv
     = (Sample.srv, mkResponse 500 (Json (VMsg "Server error")))
  /\ snd (router_delete_code_user (Sample.request "u1" "abc123" "zz" [])
            Sample.srv)
     <> mkResponse 200 (Json (VMsg "User Removed")).
Proof.
  split_and!.
  - exact sample_stored.
  - reflexivity.
  - unfold member. intros Hm. apply list_elem_of_In in Hm. cbn in Hm.
    intuition discriminate.
  - reflexivity.
  - discriminate.
Qed.

(** C10, amended: the remove-member route, called by the author, checks
    neither that the target is a member nor that it is not the author.
    When the target string spells a reference [t], the answer is "User
    Removed" with status 200 and the record is stored with [t] pulled
    from [joinedUsers]: when [t] is the author, the record stays while its
    author is no longer among its members, so [author_is_member] does not
    survive the request; when [t] is no member, the store is as it was.
    When the target string spells no reference, the answer is "Server
    error" with status 500 and the store is as it was. *)
Theorem remove_member_does_not_check_target (req : Request) (srv : Server)
  (c : Classroom.t) :
  unique_codes srv -> stored srv c ->
  Classroom.code c = params_code req -> member (user_id req) c ->
  Classroom.author c = user_id req ->
  (forall t, cast_ObjectId (params_user req) = Some t ->
     snd (router_delete_code_user req srv)
     = mkResponse 200 (Json (VMsg "User Removed"))
     /\ stored (fst (router_delete_code_user req srv)) (left_by t c)
     /\ (t = user_id req ->
         Classroom.author (left_by t c) = user_id req
         /\ ~ member (user_id req) (left_by t c)
         /\ ~ author_is_member (fst (router_delete_code_user req srv)))
     /\ (~ member t c -> fst (router_delete_code_user req srv) = srv))
  /\ (cast_ObjectId (params_user req) = None ->
      router_delete_code_user req srv
      = (srv, mkResponse 500 (Json (VMsg "Server error")))).
Proof.
  intros Hcodes Hin Hcode Hmem Hauthor.
  destruct (unique_code_split srv c Hcodes Hin)
    as (l1 & l2 & Hsplit & Hother).
  rewrite (router_delete_code_user_run req srv c l1 l2) by done.
  rewrite bool_decide_eq_true_2 by done.
  split; [|by intros ->].
  intros t ->. cbn [fst snd].
  assert (Hstored : stored (set_classrooms srv (l1 ++ left_by t c :: l2))
                      (left_by t c)).
  { unfold stored. cbn. apply elem_of_app. right. by constructor. }
  split_and!; [done|done| |].
  - intros Htarget.
    assert (Hout : ~ member (user_id req) (left_by t c)).
    { rewrite left_by_members, Htarget. tauto. }
    split_and!; [done|done|].
    intros Hinv. apply Hout. specialize (Hinv _ Hstored).
    by rewrite <- Hauthor.
  - intros Hno. rewrite left_by_absent by done.
    rewrite <- Hsplit. apply set_classrooms_id.
Qed.

Lemma hex_unique_codes : unique_codes Hex.srv.
Proof. unfold unique_codes. cbn. apply NoDup_singleton. Defined.

Lemma hex_stored : stored Hex.srv Hex.physics.
Proof. unfold stored. cbn. apply list_elem_of_In. cbn. auto. Defined.

Lemma hex_member_dana : member "5f1a2b3c4d5e6f7a8b9c0da1" Hex.physics.
Proof. unfold member. apply list_elem_of_In. cbn. auto. Defined.

(** Dana removes herself, spelling her id in upper case; she removes
    Finn, who is no member; and she names a target that is no id. *)
Lemma remove_member_does_not_check_target_witness :
  (snd (router_delete_code_user
          (Sample.request "5f1a2b3c4d5e6f7a8b9c0da1" "Zx81Qa"
             "5F1A2B3C4D5E6F7A8B9C0DA1" [])
          Hex.srv)
   = mkResponse 200 (Json (VMsg "User Removed"))
   /\ ~ member "5f1a2b3c4d5e6f7a8b9c0da1"
        (left_by "5f1a2b3c4d5e6f7a8b9c0da1" Hex.physics)
   /\ ~ author_is_member
        (fst (router_delete_code_user
                (Sample.request "5f1a2b3c4d5e6f7a8b9c0da1" "Zx81Qa"
                   "5F1A2B3C4D5E6F7A8B9C0DA1" [])
                Hex.srv)))
  /\ (snd (router_delete_code_user
             (Sample.request "5f1a2b3c4d5e6f7a8b9c0da1" "Zx81Qa"
                "5f1a2b3c4d5e6f7a8b9c0da3" [])
             Hex.srv)
      = mkResponse 200 (Json (VMsg "User Removed"))
      /\ fst (router_delete_code_user
                (Sample.request "5f1a2b3c4d5e6f7a8b9c0da1" "Zx81Qa"
                   "5f1a2b3c4d5e6f7a8b9c0da3" [])
                Hex.srv)
         = Hex.srv)
  /\ router_delete_code_user
       (Sample.request "5f1a2b3c4d5e6f7a8b9c0da1" "Zx81Qa" "zz" []) Hex.srv
     = (Hex.srv, mkResponse 500 (Json (VMsg "Server error"))).
Proof.
  split; [|split].
  - destruct (remove_member_does_not_check_target
                (Sample.request "5f1a2b3c4d5e6f7a8b9c0da1" "Zx81Qa"
                   "5F1A2B3C4D5E6F7A8B9C0DA1" [])
                Hex.srv Hex.physics hex_unique_codes hex_stored eq_refl
                hex_member_dana eq_refl) as [Hcast _].
    destruct (Hcast "5f1a2b3c4d5e6f7a8b9c0da1" eq_refl)
      as (Hmsg & _ & Hself & _).
    destruct (Hself eq_refl) as (_ & Hout & Hinv).
    exact (conj Hmsg (conj Hout Hinv)).
  - destruct (remove_member_does_not_check_target
                (Sample.request "5f1a2b3c4d5e6f7a8b9c0da1" "Zx81Qa"
                   "5f1a2b3c4d5e6f7a8b9c0da3" [])
                Hex.srv Hex.physics hex_unique_codes hex_stored eq_refl
                hex_member_dana eq_refl) as [Hcast _].
    destruct (Hcast "5f1a2b3c4d5e6f7a8b9c0da3" eq_refl)
      as (Hmsg & _ & _ & Hsame).
    split; [done|]. apply Hsame. unfold member. intros Hm.
    apply list_elem_of_In in Hm. cbn in Hm. intuition discriminate.
  - destruct (remove_member_does_not_check_target
                (Sample.request "5f1a2b3c4d5e6f7a8b9c0da1" "Zx81Qa" "zz" [])
                Hex.srv Hex.physics hex_unique_codes hex_stored eq_refl
                hex_member_dana eq_refl) as [_ Hnone].
    by apply Hnone.
Defined.

(** ** Joining a classroom *)

Lemma find_by_code_some (srv : Server) (k : string) (c : Classroom.t) :
  stored srv c -> Classroom.code c = k ->
  exists c0, List.find (matches [("code", k)]) (classrooms srv) = Some c0.
Proof.
  intros Hin Hcode.
  destruct (List.find _ _) as [c0|] eqn:Hfind; [by exists c0|].
  rewrite find_none_iff in Hfind. specialize (Hfind c Hin).
  assert (matches [("code", k)] c = true) by by apply matches_code.
  congruence.
Qed.

(** C1: whenever some classroom has the code of the request, the join
    route answers "Server Error" with status 500 and leaves the store as
    it was, whether or not the caller is a member: the route reads
    [classroom.users], a path the record does not have, and the call of
    [find] on [undefined] throws. *)
Theorem join_of_existing_code_is_server_error (req : Request)
  (srv : Server) (c : Classroom.t) :
  stored srv c -> Classroom.code c = params_code req ->
  router_post_code req srv = (srv, mkResponse 500 (Send "Server Error")).
Proof.
  intros Hin Hcode.
  destruct (find_by_code_some srv _ c Hin Hcode) as [c0 Hfind].
  unfold router_post_code. run_handler. by rewrite Hfind.
Qed.

Lemma join_of_existing_code_is_server_error_witness :
  router_post_code (Sample.request "u2" "abc123" "" []) Sample.srv
  = (Sample.srv, mkResponse 500 (Send "Server Error"))
  /\ router_post_code (Sample.request "u3" "abc123" "" []) Sample.srv
     = (Sample.srv, mkResponse 500 (Send "Server Error")).
Proof.
  split.
  - exact (join_of_existing_code_is_server_error
             (Sample.request "u2" "abc123" "" []) Sample.srv Sample.algebra
             sample_stored eq_refl).
  - exact (join_of_existing_code_is_server_error
             (Sample.request "u3" "abc123" "" []) Sample.srv Sample.algebra
             sample_stored eq_refl).
Defined.

(** ** Listing the members *)

(** C2: for a member of a classroom, when the global object has no
    property [users], the list-members route answers "Server error" with
    status 500 and returns no identity record: the query result is
    assigned to the undeclared name [constjoinedUsers], and the identifier
    [users] that the route then sends is bound nowhere.  The two
    collections are as they were. *)
Theorem list_members_is_server_error (req : Request) (srv : Server)
  (c : Classroom.t) :
  globals srv !! "users" = None ->
  stored srv c -> Classroom.code c = params_code req ->
  member (user_id req) c ->
  snd (router_get_code_users req srv)
  = mkResponse 500 (Json (VMsg "Server error"))
  /\ classrooms (fst (router_get_code_users req srv)) = classrooms srv
  /\ users (fst (router_get_code_users req srv)) = users srv.
Proof.
  intros Hglobal Hin Hcode Hmem.
  assert (exists c0,
             List.find (matches [("code", params_code req);
                                 ("joinedUsers", user_id req)])
               (classrooms srv) = Some c0) as [c0 Hfind].
  { destruct (List.find _ _) as [c0|] eqn:Hfind; [by exists c0|].
    rewrite find_none_iff in Hfind. specialize (Hfind c Hin).
    assert (matches [("code", params_code req);
                     ("joinedUsers", user_id req)] c = true)
      by by apply matches_code_member.
    congruence. }
  unfold router_get_code_users. run_handler. rewrite Hfind. cbn.
  rewrite lookup_insert_ne by done. by rewrite Hglobal.
Qed.

Lemma list_members_is_server_error_witness :
  snd (router_get_code_users (Sample.request "u1" "abc123" "" []) Sample.srv)
  = mkResponse 500 (Json (VMsg "Server error"))
  /\ classrooms
       (fst (router_get_code_users (Sample.request "u1" "abc123" "" [])
               Sample.srv))
     = classrooms Sample.srv
  /\ users
       (fst (router_get_code_users (Sample.request "u1" "abc123" "" [])
               Sample.srv))
     = users Sample.srv.
Proof.
  exact (list_members_is_server_error
           (Sample.request "u1" "abc123" "" []) Sample.srv Sample.algebra
           eq_refl sample_stored eq_refl sample_member_alice).
Defined.

(** ** The routes keep the invariants of the store *)

Lemma set_path_keys (c : Classroom.t) (kv : string * option string) :
  same_keys c (set_path c kv).
Proof.
  destruct kv as [p v]. unfold set_path.
  repeat (destruct (String.eqb p _); [by split_and!|]).
  by split_and!.
Qed.

Lemma apply_update_keys (u : Update) (c : Classroom.t) :
  same_keys c (apply_update u c).
Proof.
  destruct u as [fields|p v|p operand]; cbn.
  - revert c. induction fields as [|kv fields IH]; intros c; cbn.
    + by split_and!.
    + destruct (set_path_keys c kv) as (H1 & H2 & H3).
      destruct (IH (set_path c kv)) as (H4 & H5 & H6).
      split_and!; congruence.
  - destruct (String.eqb p _); by split_and!.
  - destruct (String.eqb p _); by split_and!.
Qed.

Section Keys.
Context (key : Classroom.t -> string).

Lemma update_first_keys (p : Classroom.t -> bool)
  (f : Classroom.t -> Classroom.t) (l : list Classroom.t) :
  (forall c, key (f c) = key c) ->
  key <$> fst (update_first p f l) = key <$> l.
Proof.
  intros Hf. induction l as [|c l IH]; cbn; [done|].
  destruct (p c); cbn; [by rewrite Hf|].
  destruct (update_first p f l) as [l' r]. cbn in *. by rewrite IH.
Qed.

Lemma delete_first_keys (p : Classroom.t -> bool) (l : list Classroom.t) :
  key <$> delete_first p l `sublist_of` key <$> l.
Proof.
  induction l as [|c l IH]; cbn; [done|].
  destruct (p c); cbn; [by apply sublist_cons | by apply sublist_skip].
Qed.

(** Every route but the create route leaves the keys of the collection
    as they were, or drops some of them. *)
Lemma handle_keys (r : Route) (req : Request) (srv : Server) :
  (forall u c, key (apply_update u c) = key c) ->
  is_create r = false ->
  key <$> classrooms (fst (handle r req srv))
  `sublist_of` key <$> classrooms srv.
Proof.
  intros Hkey Hroute. destruct r; cbn [handle].
  - by rewrite router_get_root_run.
  - done.
  - by rewrite router_get_code_run.
  - unfold router_post_code. run_handler.
    by destruct (List.find _ _).
  - unfold router_patch_code.
    destruct (negb (isEmpty _)); [done|]. run_handler.
    destruct (List.find _ _); cbn; [|done].
    destruct (String.eqb _ _); cbn; [|done].
    pose proof (update_first_keys
                  (matches [("code", params_code req)])
                  (apply_update
                     (USet [("title", body req !! "title");
                            ("subcode", body req !! "subcode");
                            ("subject", body req !! "subject")]))
                  (classrooms srv) (Hkey _)) as Hup.
    destruct (update_first _ _ _) as [l' r']. cbn in *. by rewrite Hup.
  - unfold router_delete_code. run_handler.
    destruct (List.find _ _); cbn; [|done].
    destruct (String.eqb _ _); cbn; [apply delete_first_keys|].
    pose proof (update_first_keys
                  (matches [("code", params_code req)])
                  (apply_update (UPullIn "joinedUsers" (VStr (user_id req))))
                  (classrooms srv) (Hkey _)) as Hup.
    destruct (update_first _ _ _) as [l' r']. cbn in *. by rewrite Hup.
  - unfold router_delete_code_user. run_handler.
    destruct (List.find _ _); cbn; [|done].
    destruct (String.eqb _ _); cbn; [|done].
    destruct (cast_ObjectId (params_user req)) as [tgt|]; cbn; [|done].
    pose proof (update_first_keys
                  (matches [("code", params_code req)])
                  (apply_update (UPullIn "joinedUsers" (VId tgt)))
                  (classrooms srv) (Hkey _)) as Hup.
    destruct (update_first _ _ _) as [l' r']. cbn in *. by rewrite Hup.
  - unfold router_get_code_users. run_handler.
    destruct (List.find _ _); cbn; [|done].
    by destruct (_ !! _).
Qed.
End Keys.

(** X4: join codes and primary keys stay unique along every request, as
    long as the create route draws a code and an [_id] that are not in
    use. *)
Theorem store_invariants_preserved (r : Route) (req : Request)
  (srv : Server) :
  unique_codes srv -> unique_ids srv -> draws_fresh r srv ->
  unique_codes (fst (handle r req srv))
  /\ unique_ids (fst (handle r req srv)).
Proof.
  unfold unique_codes, unique_ids. intros Hcodes Hids Hfresh.
  destruct (is_create r) eqn:Hr; [|split].
  - destruct r; try discriminate. cbn [handle].
    destruct Hfresh as [Hcode Hoid]. rewrite router_post_root_run.
    destruct (List.find _ _); cbn; [|done].
    rewrite !fmap_app. cbn. split.
    + apply NoDup_app. split_and!; [done| |apply NoDup_singleton].
      intros x Hx ->%list_elem_of_singleton. done.
    + apply NoDup_app. split_and!; [done| |apply NoDup_singleton].
      intros x Hx ->%list_elem_of_singleton. done.
  - eapply sublist_NoDup; [exact Hcodes|].
    apply handle_keys; [|done]. intros u c. apply apply_update_keys.
  - eapply sublist_NoDup; [exact Hids|].
    apply handle_keys; [|done]. intros u c. apply apply_update_keys.
Qed.

(** ** Two classrooms under one code

    The routes locate a record first by code and membership and then
    update it by code alone.  When two records share a code the two lookups
    can stop at different records, which is why the statements above ask
    for [unique_codes]. *)

(** Carol is a member of the second record only; her leave request is
    answered as a success while the store, and so her membership, is as
    it was. *)
Lemma leave_with_shared_code :
  router_delete_code (Sample.request "u3" "abc123" "" []) Shared.srv
  = (Shared.srv, mkResponse 200 (Json (VMsg "Class leaved successfully."))).
Proof. reflexivity. Qed.

(** ** What a request can do to the collections *)

Lemma find_visible (req : Request) (srv : Server) (c : Classroom.t) :
  List.find (matches [("code", params_code req);
                      ("joinedUsers", user_id req)]) (classrooms srv)
  = Some c ->
  visible srv req c.
Proof.
  intros [Hin Hm]%find_some.
  apply matches_code_member in Hm as [Hcode Hmem].
  split_and!; [by apply list_elem_of_In | done..].
Qed.

Lemma find_not_visible (req : Request) (srv : Server) :
  ~ (exists c, visible srv req c) ->
  List.find (matches [("code", params_code req);
                      ("joinedUsers", user_id req)]) (classrooms srv)
  = None.
Proof.
  intros Hno. destruct (List.find _ _) as [c|] eqn:Hfind; [|done].
  destruct Hno. exists c. by apply find_visible.
Qed.

(** The join route leaves the server as it is, whatever it answers. *)
Lemma router_post_code_run (req : Request) (srv : Server) :
  router_post_code req srv
  = (srv,
     match List.find (matches [("code", params_code req)])
             (classrooms srv) with
     | Some _ => res_status_send 500 "Server Error"
     | None => res_status_json 400 (VMsg "Class does not exist.")
     end).
Proof.
  unfold router_post_code. run_handler. by destruct (List.find _ _).
Qed.

Lemma handle_effect (r : Route) (req : Request) (srv : Server) :
  users (fst (handle r req srv)) = users srv
  /\ effect r req (classrooms srv) (classrooms (fst (handle r req srv))).
Proof.
  destruct r; cbn [handle].
  - rewrite router_get_root_run. split; [done | by apply effect_none].
  - rewrite router_post_root_run.
    destruct (List.find _ _); cbn;
      (split; [done|]); [by eapply effect_insert | by apply effect_none].
  - rewrite router_get_code_run. split; [done | by apply effect_none].
  - rewrite router_post_code_run. split; [done | by apply effect_none].
  - unfold router_patch_code.
    destruct (negb (isEmpty _)); [split; [done | by apply effect_none]|].
    run_handler.
    destruct (List.find _ _); cbn;
      [|split; [done | by apply effect_none]].
    destruct (String.eqb _ _); cbn;
      [|split; [done | by apply effect_none]].
    destruct (update_first _ _ _) as [l' r'] eqn:Hup. cbn.
    split; [done|].
    eapply (effect_update _ _ _ _ [("code", params_code req)]
              (USet [("title", body req !! "title");
                     ("subcode", body req !! "subcode");
                     ("subject", body req !! "subject")])); [done|].
    by rewrite Hup.
  - unfold router_delete_code. run_handler.
    destruct (List.find _ _) as [c0|] eqn:Hfind; cbn;
      [|split; [done | by apply effect_none]].
    apply find_visible in Hfind as (Hin & _ & Hmem).
    destruct (String.eqb _ _) eqn:Hauthor; cbn.
    + split; [done|]. apply String.eqb_eq in Hauthor.
      by eapply (effect_delete _ _ _ _ c0).
    + destruct (update_first _ _ _) as [l' r'] eqn:Hup. cbn.
      split; [done|].
      eapply (effect_update _ _ _ _ [("code", params_code req)]
                (UPullIn "joinedUsers" (VStr (user_id req)))); [done|].
      by rewrite Hup.
  - unfold router_delete_code_user. run_handler.
    destruct (List.find _ _); cbn;
      [|split; [done | by apply effect_none]].
    destruct (String.eqb _ _); cbn;
      [|split; [done | by apply effect_none]].
    destruct (cast_ObjectId (params_user req)) as [tgt|]; cbn;
      [|split; [done | by apply effect_none]].
    destruct (update_first _ _ _) as [l' r'] eqn:Hup. cbn.
    split; [done|].
    eapply (effect_update _ _ _ _ [("code", params_code req)]
              (UPullIn "joinedUsers" (VId tgt))); [done|].
    by rewrite Hup.
  - unfold router_get_code_users. run_handler.
    destruct (List.find _ _); cbn;
      [|split; [done | by apply effect_none]].
    destruct (_ !! _); cbn; (split; [done | by apply effect_none]).
Qed.

(** An update that is no [$push] gives a record no new member. *)
Lemma set_path_members (c : Classroom.t) (kv : string * option string) :
  Classroom.joinedUsers (set_path c kv) = Classroom.joinedUsers c.
Proof.
  destruct kv as [p v]. unfold set_path.
  by repeat (destruct (String.eqb p _); [done|]).
Qed.

Lemma set_fields_members (fields : list (string * option string))
  (c : Classroom.t) :
  Classroom.joinedUsers (fold_left set_path fields c)
  = Classroom.joinedUsers c.
Proof.
  revert c. induction fields as [|kv fields IH]; intros c; cbn; [done|].
  by rewrite IH, set_path_members.
Qed.

Lemma apply_update_descends (u : Update) (c : Classroom.t) :
  shrinking u = true -> descends c (apply_update u c).
Proof.
  intros Hu. split; [apply apply_update_keys|].
  intros x. unfold member.
  destruct u as [fields|p v|p operand]; [|done|]; cbn.
  - by rewrite set_fields_members.
  - destruct (String.eqb p _); cbn; [|done].
    unfold pull_in. rewrite !list_elem_of_In, filter_In. tauto.
Qed.

Lemma descends_refl (c : Classroom.t) : descends c c.
Proof. by split; [split_and!|]. Qed.

Lemma update_first_elem (p : Classroom.t -> bool)
  (f : Classroom.t -> Classroom.t) (l : list Classroom.t)
  (d' : Classroom.t) :
  d' ∈ fst (update_first p f l) -> exists d, d ∈ l /\ (d' = d \/ d' = f d).
Proof.
  induction l as [|c l IH]; cbn; [by intros ?%elem_of_nil|].
  destruct (p c); cbn.
  - intros [->|Hd]%elem_of_cons.
    + exists c. split; [by constructor | by right].
    + exists d'. split; [by constructor | by left].
  - destruct (update_first p f l) as [l' r']. cbn in *.
    intros [->|Hd]%elem_of_cons.
    + exists c. split; [by constructor | by left].
    + destruct (IH Hd) as (d & Hin & Hor). exists d.
      split; [by constructor | done].
Qed.

Lemma update_first_image (p : Classroom.t -> bool)
  (f : Classroom.t -> Classroom.t) (l : list Classroom.t)
  (d : Classroom.t) :
  d ∈ l ->
  d ∈ fst (update_first p f l) \/ f d ∈ fst (update_first p f l).
Proof.
  induction l as [|c l IH]; cbn; [by intros ?%elem_of_nil|].
  destruct (p c); cbn.
  - intros [->|Hd]%elem_of_cons.
    + right. by constructor.
    + left. by constructor.
  - destruct (update_first p f l) as [l' r']. cbn in *.
    intros [->|Hd]%elem_of_cons.
    + left. by constructor.
    + destruct (IH Hd); [left | right]; by constructor.
Qed.

Lemma delete_first_elem (p : Classroom.t -> bool) (l : list Classroom.t)
  (d : Classroom.t) :
  d ∈ delete_first p l -> d ∈ l.
Proof.
  induction l as [|c l IH]; cbn; [done|].
  destruct (p c); [by constructor|].
  intros [->|Hd]%elem_of_cons; constructor. by apply IH.
Qed.

Lemma delete_first_other (p : Classroom.t -> bool) (l : list Classroom.t)
  (d : Classroom.t) :
  d ∈ l -> p d = false -> d ∈ delete_first p l.
Proof.
  induction l as [|c l IH]; cbn; [done|].
  intros [->|Hd]%elem_of_cons Hp.
  - rewrite Hp. by constructor.
  - destruct (p c); [done|]. constructor. by apply IH.
Qed.

Lemma NoDup_fmap_inj_on {A} (f : Classroom.t -> A) (l : list Classroom.t)
  (x y : Classroom.t) :
  NoDup (f <$> l) -> x ∈ l -> y ∈ l -> f x = f y -> x = y.
Proof.
  induction l as [|c l IH]; [by intros _ ?%elem_of_nil|].
  rewrite fmap_cons, NoDup_cons. intros [Hc Hnd].
  intros [->|Hx]%elem_of_cons [->|Hy]%elem_of_cons Heq; [done| | |by apply IH].
  - destruct Hc. rewrite Heq. by apply list_elem_of_fmap_2.
  - destruct Hc. rewrite <- Heq. by apply list_elem_of_fmap_2.
Qed.

Lemma descends_orphaned (c c' : Classroom.t) :
  descends c c' -> orphaned c -> orphaned c'.
Proof.
  intros [(_ & _ & Hauthor) Hsub] Horph Hm. apply Horph.
  rewrite <- Hauthor. by apply Hsub.
Qed.

(** X1: no route ever changes the User collection. *)
Theorem users_never_mutated (r : Route) (req : Request) (srv : Server) :
  users (fst (handle r req srv)) = users srv.
Proof. apply handle_effect. Qed.

(** X2: no request adds a member to a record that exists.  A record
    stored after a request either descends from a record stored before
    it, with the same [_id], [code] and [author] and no member the
    earlier record did not have, or is the record the create route has
    just built for the caller. *)
Theorem members_never_grow (r : Route) (req : Request) (srv : Server)
  (d' : Classroom.t) :
  stored (fst (handle r req srv)) d' ->
  (exists d, stored srv d /\ descends d d')
  \/ (exists rnd oid, r = PostRoot rnd oid /\ d' = created rnd oid req).
Proof.
  unfold stored. intros Hd'.
  destruct (handle_effect r req srv) as [_ Heff].
  destruct Heff as [Heq|rnd oid Hr Heq|q u Hu Heq|c Hc Hmem Hauthor Heq];
    rewrite Heq in Hd'.
  - left. exists d'. split; [done | apply descends_refl].
  - apply elem_of_app in Hd' as [Hd'|Hd'].
    + left. exists d'. split; [done | apply descends_refl].
    + right. exists rnd, oid. split; [done|].
      by apply list_elem_of_singleton in Hd'.
  - left. apply update_first_elem in Hd' as (d & Hd & [->| ->]).
    + exists d. split; [done | apply descends_refl].
    + exists d. split; [done | by apply apply_update_descends].
  - left. exists d'. split; [by eapply delete_first_elem | apply descends_refl].
Qed.

Lemma members_never_grow_witness :
  (exists d, stored Sample.srv d
             /\ descends d (left_by "u2" Sample.algebra))
  \/ (exists rnd oid,
        DeleteCode = PostRoot rnd oid
        /\ left_by "u2" Sample.algebra
           = created rnd oid (Sample.request "u2" "abc123" "" [])).
Proof.
  apply (members_never_grow DeleteCode
           (Sample.request "u2" "abc123" "" []) Sample.srv
           (left_by "u2" Sample.algebra)).
  unfold stored. cbn. by constructor.
Defined.

(** X3: a record whose author is not among its members stays for good.
    Whatever the next request is, a record with the same [_id], [code]
    and [author] is stored after it, and the author is still not among
    its members: nobody can delete it, and nobody can make the author a
    member again. *)
Theorem orphaned_classroom_persists (r : Route) (req : Request)
  (srv : Server) (c : Classroom.t) :
  unique_ids srv -> stored srv c -> orphaned c ->
  exists c', stored (fst (handle r req srv)) c'
             /\ descends c c' /\ orphaned c'.
Proof.
  unfold unique_ids, stored. intros Hids Hc Horph.
  destruct (handle_effect r req srv) as [_ Heff].
  destruct Heff as [Heq|rnd oid Hr Heq|q u Hu Heq|c0 Hc0 Hmem Hauthor Heq];
    rewrite Heq.
  - exists c. split_and!; [done | apply descends_refl | done].
  - exists c. split_and!; [|apply descends_refl | done].
    apply elem_of_app. by left.
  - destruct (update_first_image (matches q) (apply_update u) _ c Hc)
      as [Hin|Hin].
    + exists c. split_and!; [done | apply descends_refl | done].
    + exists (apply_update u c).
      assert (descends c (apply_update u c))
        by by apply apply_update_descends.
      split_and!; [done | done | by eapply descends_orphaned].
  - exists c. split_and!; [|apply descends_refl | done].
    apply delete_first_other; [done|]. apply String.eqb_neq. intros Hid.
    assert (c = c0) as -> by by eapply (NoDup_fmap_inj_on Classroom._id).
    apply Horph. by rewrite Hauthor.
Qed.

Lemma orphaned_classroom_persists_witness :
  exists c',
    stored
      (fst (handle DeleteCode (Sample.request "u1" "abc123" "" [])
              (set_classrooms Sample.srv [left_by "u1" Sample.algebra])))
      c'
    /\ descends (left_by "u1" Sample.algebra) c' /\ orphaned c'.
Proof.
  apply (orphaned_classroom_persists DeleteCode
           (Sample.request "u1" "abc123" "" [])
           (set_classrooms Sample.srv [left_by "u1" Sample.algebra])
           (left_by "u1" Sample.algebra)).
  - unfold unique_ids. cbn. apply NoDup_singleton.
  - unfold stored. cbn. by constructor.
  - unfold orphaned, member. intros Hm.
    apply list_elem_of_In in Hm. cbn in Hm. intuition discriminate.
Defined.

Lemma store_invariants_preserved_witness :
  unique_codes
    (fst (handle (PostRoot (fun i => i * 7) "c2")
            (Sample.request "u3" "" "" [("title", "Biology")]) Sample.srv))
  /\ unique_ids
       (fst (handle (PostRoot (fun i => i * 7) "c2")
               (Sample.request "u3" "" "" [("title", "Biology")])
               Sample.srv)).
Proof.
  apply (store_invariants_preserved (PostRoot (fun i => i * 7) "c2")
           (Sample.request "u3" "" "" [("title", "Biology")]) Sample.srv
           sample_unique_codes sample_unique_ids).
  split.
  - intros Hin. apply list_elem_of_In in Hin. cbn in Hin.
    intuition discriminate.
  - intros Hin. apply list_elem_of_In in Hin. cbn in Hin.
    intuition discriminate.
Defined.

(** ** Edge cases of the routes *)

Lemma filter_sublist_of (p : Classroom.t -> bool) (l : list Classroom.t) :
  List.filter p l `sublist_of` l.
Proof.
  induction l as [|c l IH]; cbn [List.filter]; [done|].
  destruct (p c); [by apply sublist_skip | by apply sublist_cons].
Qed.

(** X5: the list route never changes the server and always answers with
    status 200; the list it sends holds exactly the stored records that
    have the caller among their members, in the order of the store. *)
Theorem list_is_exactly_the_callers_classrooms (req : Request)
  (srv : Server) :
  fst (router_get_root req srv) = srv
  /\ exists l,
       snd (router_get_root req srv) = mkResponse 200 (Json (VClassrooms l))
       /\ l `sublist_of` classrooms srv
       /\ forall c, c ∈ l <-> stored srv c /\ member (user_id req) c.
Proof.
  rewrite router_get_root_run. split; [done|].
  eexists. split_and!; [done| |].
  - apply filter_sublist_of.
  - intros c. rewrite list_elem_of_In, filter_In, matches_member.
    by rewrite <- list_elem_of_In.
Qed.

(** X6: when the User collection has no record of the caller, the create
    route answers "Server Error" with status 500 and stores nothing: the
    [_id] of the missing author cannot be read. *)
Theorem create_without_identity_is_server_error (rnd : nat -> nat)
  (oid : ObjectId) (req : Request) (srv : Server) :
  (forall u, u ∈ users srv -> User._id u <> user_id req) ->
  router_post_root rnd oid req srv
  = (srv, mkResponse 500 (Send "Server Error")).
Proof.
  intros Hnone. rewrite router_post_root_run.
  destruct (List.find _ _) as [u|] eqn:Hfind; [|done].
  apply find_some in Hfind as [Hin Heq].
  apply list_elem_of_In in Hin. apply String.eqb_eq in Heq.
  by destruct (Hnone u Hin).
Qed.

Lemma create_without_identity_is_server_error_witness :
  router_post_root (fun i => i) "c2"
    (Sample.request "u9" "" "" [("title", "Biology")]) Sample.srv
  = (Sample.srv, mkResponse 500 (Send "Server Error")).
Proof.
  apply create_without_identity_is_server_error.
  intros u Hu Heq. apply list_elem_of_In in Hu. cbn in Hu.
  destruct Hu as [<-|[<-|[<-|[]]]]; discriminate.
Defined.

(** X7: the create route does not look the drawn code up.  When a stored
    record already has the code the generator draws, the new record is
    stored under the same code, and join codes are no longer unique. *)
Theorem create_keeps_a_drawn_code_in_use (rnd : nat -> nat)
  (oid : ObjectId) (req : Request) (srv : Server) (u : User.t)
  (c : Classroom.t) :
  u ∈ users srv -> User._id u = user_id req ->
  stored srv c -> Classroom.code c = Randomatic.randomatic "aA0" 6 rnd ->
  stored (fst (router_post_root rnd oid req srv)) c
  /\ stored (fst (router_post_root rnd oid req srv)) (created rnd oid req)
  /\ Classroom.code (created rnd oid req) = Classroom.code c
  /\ ~ unique_codes (fst (router_post_root rnd oid req srv)).
Proof.
  unfold stored, unique_codes. intros Hu Hid Hc Hcode.
  rewrite router_post_root_run.
  destruct (List.find _ _) eqn:Hfind.
  - cbn. split_and!.
    + apply elem_of_app. by left.
    + apply elem_of_app. right. by constructor.
    + done.
    + rewrite fmap_app, NoDup_app. intros (_ & Hdisj & _).
      apply (Hdisj (Classroom.code c)).
      * by apply list_elem_of_fmap_2.
      * cbn. rewrite Hcode. by constructor.
  - rewrite find_none_iff in Hfind. specialize (Hfind u Hu). cbn in Hfind.
    rewrite Hid, String.eqb_refl in Hfind. discriminate.
Qed.

Lemma create_keeps_a_drawn_code_in_use_witness :
  ~ unique_codes
      (fst (router_post_root (fun i => i * 7) "c9"
              (Sample.request "u3" "" "" [])
              (set_classrooms Sample.srv
                 [created (fun i => i * 7) "c2"
                    (Sample.request "u1" "" "" [])]))).
Proof.
  apply (create_keeps_a_drawn_code_in_use (fun i => i * 7) "c9"
           (Sample.request "u3" "" "" [])
           (set_classrooms Sample.srv
              [created (fun i => i * 7) "c2" (Sample.request "u1" "" "" [])])
           Sample.carol
           (created (fun i => i * 7) "c2" (Sample.request "u1" "" "" []))).
  - apply list_elem_of_In. cbn. auto.
  - reflexivity.
  - unfold stored. cbn. by constructor.
  - reflexivity.
Defined.

(** X8: the join route never joins anybody.  It leaves the server as it
    is for every request; it answers "Server Error" with status 500 when
    some record has the code, and "Class does not exist." with status 400
    when none has. *)
Theorem join_never_changes_the_store (req : Request) (srv : Server) :
  fst (router_post_code req srv) = srv
  /\ ((exists c, stored srv c /\ Classroom.code c = params_code req) ->
      snd (router_post_code req srv) = mkResponse 500 (Send "Server Error"))
  /\ (~ (exists c, stored srv c /\ Classroom.code c = params_code req) ->
      snd (router_post_code req srv)
      = mkResponse 400 (Json (VMsg "Class does not exist."))).
Proof.
  rewrite router_post_code_run. cbn. split_and!; [done| |].
  - intros (c & Hin & Hcode).
    destruct (find_by_code_some srv _ c Hin Hcode) as [c0 ->]. done.
  - intros Hno. destruct (List.find _ _) as [c|] eqn:Hfind; [|done].
    destruct Hno. exists c. apply find_some in Hfind as [Hin Hm].
    split; [by apply list_elem_of_In | by apply matches_code].
Qed.

(** X9: an edit request whose body fails validation is answered with
    status 400 and the list of errors before any record is looked up, so
    for every store, code and caller; the store is unchanged, and the list
    has the error of a field exactly when that field is missing or
    empty. *)
Theorem edit_reports_each_empty_field (req : Request) (srv : Server) :
  edit_body_valid req = false ->
  router_patch_code req srv
  = (srv, mkResponse 400 (Json (VErrors (edit_errors req))))
  /\ (mkValidationError "title" "title is required" ∈ edit_errors req
      <-> notEmpty (body req !! "title") = false)
  /\ (mkValidationError "subject" "Subject is required" ∈ edit_errors req
      <-> notEmpty (body req !! "subject") = false)
  /\ (mkValidationError "subcode" "Subcode is required" ∈ edit_errors req
      <-> notEmpty (body req !! "subcode") = false).
Proof.
  intros Hinv. rewrite router_patch_code_invalid by done.
  split; [done|].
  unfold edit_errors, validationResult. cbn.
  rewrite !check_notEmpty_spec.
  destruct (notEmpty (body req !! "title")),
    (notEmpty (body req !! "subject")), (notEmpty (body req !! "subcode"));
    cbn; rewrite !list_elem_of_In; cbn; intuition discriminate.
Qed.

Lemma edit_reports_each_empty_field_witness :
  router_patch_code
    (Sample.request "u9" "nocode" "" [("title", "T"); ("subject", "")])
    Sample.srv
  = (Sample.srv,
     mkResponse 400
       (Json (VErrors
                (edit_errors
                   (Sample.request "u9" "nocode" ""
                      [("title", "T"); ("subject", "")]))))).
Proof.
  apply (edit_reports_each_empty_field
           (Sample.request "u9" "nocode" "" [("title", "T"); ("subject", "")])
           Sample.srv).
  reflexivity.
Defined.

(** X10: the four routes that look a record up by code and membership
    hide it from everybody else.  When no stored record has both the code
    of the request and the caller among its members, the edit route (on
    a body that passes validation), the delete route, the remove-member
    route and the list-members route all leave the server as it is and
    answer "Class does not exist." with status 400. *)
Theorem gated_routes_hide_the_classroom (req : Request) (srv : Server) :
  ~ (exists c, visible srv req c) ->
  (edit_body_valid req = true ->
   router_patch_code req srv
   = (srv, mkResponse 400 (Json (VMsg "Class does not exist."))))
  /\ router_delete_code req srv
     = (srv, mkResponse 400 (Json (VMsg "Class does not exist.")))
  /\ router_delete_code_user req srv
     = (srv, mkResponse 400 (Json (VMsg "Class does not exist.")))
  /\ router_get_code_users req srv
     = (srv, mkResponse 400 (Json (VMsg "Class does not exist."))).
Proof.
  intros Hno. pose proof (find_not_visible req srv Hno) as Hfind.
  split_and!.
  - intros Hvalid. unfold router_patch_code. fold (edit_errors req).
    rewrite edit_errors_valid, Hvalid. run_handler. by rewrite Hfind.
  - unfold router_delete_code. run_handler. by rewrite Hfind.
  - unfold router_delete_code_user. run_handler. by rewrite Hfind.
  - unfold router_get_code_users. run_handler. by rewrite Hfind.
Qed.

Lemma gated_routes_hide_the_classroom_witness :
  router_delete_code (Sample.request "u3" "abc123" "" []) Sample.srv
  = (Sample.srv, mkResponse 400 (Json (VMsg "Class does not exist.")))
  /\ router_delete_code_user (Sample.request "u3" "abc123" "u1" [])
       Sample.srv
     = (Sample.srv, mkResponse 400 (Json (VMsg "Class does not exist."))).
Proof.
  split.
  - apply (gated_routes_hide_the_classroom
             (Sample.request "u3" "abc123" "" []) Sample.srv).
    intros (c & Hin & _ & Hm). unfold stored, member in *. cbn in Hin.
    apply list_elem_of_singleton in Hin. subst c.
    apply list_elem_of_In in Hm. cbn in Hm. intuition discriminate.
  - apply (gated_routes_hide_the_classroom
             (Sample.request "u3" "abc123" "u1" []) Sample.srv).
    intros (c & Hin & _ & Hm). unfold stored, member in *. cbn in Hin.
    apply list_elem_of_singleton in Hin. subst c.
    apply list_elem_of_In in Hm. cbn in Hm. intuition discriminate.
Defined.

(** The delete route on a code and caller that no record answers to. *)
Lemma gated_lookup_fails (req : Request) (srv : Server) :
  ~ (exists c, visible srv req c) ->
  router_delete_code req srv
  = (srv, mkResponse 400 (Json (VMsg "Class does not exist."))).
Proof.
  intros Hno. unfold router_delete_code. run_handler.
  by rewrite (find_not_visible req srv Hno).
Qed.

(** ** Requests in sequence *)

(** Reading a code that one record of the store has. *)
Lemma router_get_code_at (req : Request) (srv : Server) (c : Classroom.t)
  (l1 l2 : list Classroom.t) :
  classrooms srv = l1 ++ c :: l2 ->
  (forall d, d ∈ l1 ++ l2 -> Classroom.code d <> Classroom.code c) ->
  params_code req = Classroom.code c ->
  snd (router_get_code req srv)
  = if bool_decide (member (user_id req) c)
    then res_json (VClassroom c)
    else res_status_json 400 (VMsg "Class does not exist.").
Proof.
  intros Hsplit Hother Hcode. rewrite router_get_code_run, Hsplit. cbn.
  case_bool_decide as Hmem.
  - rewrite find_split; [done| |].
    + by apply matches_code_member.
    + intros d Hd. apply other_code_no_match. rewrite Hcode.
      apply Hother, elem_of_app. by left.
  - assert (List.find
              (matches [("code", params_code req);
                        ("joinedUsers", user_id req)]) (l1 ++ c :: l2)
            = None) as ->; [|done].
    apply find_none_iff. intros d Hd. apply not_true_is_false.
    rewrite matches_code_member. intros [Hd1 Hd2].
    apply elem_of_app in Hd as [Hd|Hd].
    + apply (Hother d); [apply elem_of_app; by left | congruence].
    + apply elem_of_cons in Hd as [->|Hd]; [done|].
      apply (Hother d); [apply elem_of_app; by right | congruence].
Qed.

(** X11: create, then read.  Once the create route has stored a record
    under a code that was not in use, reading that code answers the
    caller with the new record, and answers everybody else "Class does
    not exist.". *)
Theorem create_then_read (rnd : nat -> nat) (oid : ObjectId)
  (req req' : Request) (srv : Server) (u : User.t) :
  u ∈ users srv -> User._id u = user_id req ->
  (Randomatic.randomatic "aA0" 6 rnd ∉ Classroom.code <$> classrooms srv) ->
  params_code req' = Randomatic.randomatic "aA0" 6 rnd ->
  (user_id req' = user_id req ->
   snd (router_get_code req' (fst (router_post_root rnd oid req srv)))
   = mkResponse 200 (Json (VClassroom (created rnd oid req))))
  /\ (user_id req' <> user_id req ->
      snd (router_get_code req' (fst (router_post_root rnd oid req srv)))
      = mkResponse 400 (Json (VMsg "Class does not exist."))).
Proof.
  intros Hu Hid Hfresh Hcode. rewrite router_post_root_run.
  destruct (List.find _ _) eqn:Hfind.
  - cbn [fst].
    rewrite (router_get_code_at req' _ (created rnd oid req)
               (classrooms srv) []); [|done| |done].
    + split; intros Hcaller.
      * rewrite bool_decide_eq_true_2; [done|]. unfold member. cbn.
        rewrite Hcaller. by constructor.
      * rewrite bool_decide_eq_false_2; [done|]. unfold member. cbn.
        by intros Heq%list_elem_of_singleton.
    + rewrite app_nil_r. intros d Hd Heq. apply Hfresh.
      change (Randomatic.randomatic "aA0" 6 rnd)
        with (Classroom.code (created rnd oid req)).
      rewrite <- Heq. by apply list_elem_of_fmap_2.
  - rewrite find_none_iff in Hfind. specialize (Hfind u Hu). cbn in Hfind.
    rewrite Hid, String.eqb_refl in Hfind. discriminate.
Qed.

Lemma create_then_read_witness :
  snd (router_get_code (Sample.request "u3" "ahovCJ" "" [])
         (fst (router_post_root (fun i => i * 7) "c2"
                 (Sample.request "u3" "" "" [("title", "Biology")])
                 Sample.srv)))
  = mkResponse 200
      (Json (VClassroom
               (created (fun i => i * 7) "c2"
                  (Sample.request "u3" "" "" [("title", "Biology")])))).
Proof.
  apply (create_then_read (fun i => i * 7) "c2"
           (Sample.request "u3" "" "" [("title", "Biology")])
           (Sample.request "u3" "ahovCJ" "" []) Sample.srv Sample.carol).
  - apply list_elem_of_In. cbn. auto.
  - reflexivity.
  - intros Hin. apply list_elem_of_In in Hin. cbn in Hin.
    intuition discriminate.
  - reflexivity.
  - reflexivity.
Defined.

(** X12: edit, then read.  After the author's edit with a body that
    passes validation, every member of the classroom who reads its code
    gets the edited record: the title and subject of the body, and the
    members, code, author and cover it had. *)
Theorem edit_then_read (req req' : Request) (srv : Server)
  (c : Classroom.t) :
  unique_codes srv -> stored srv c ->
  Classroom.code c = params_code req -> member (user_id req) c ->
  Classroom.author c = user_id req -> edit_body_valid req = true ->
  params_code req' = Classroom.code c -> member (user_id req') c ->
  snd (router_get_code req' (fst (router_patch_code req srv)))
  = mkResponse 200 (Json (VClassroom (edited req c)))
  /\ Classroom.title (edited req c) = body req !! "title"
  /\ Classroom.subject (edited req c) = body req !! "subject"
  /\ Classroom.joinedUsers (edited req c) = Classroom.joinedUsers c
  /\ Classroom.cover (edited req c) = Classroom.cover c
  /\ same_keys c (edited req c).
Proof.
  intros Huniq Hin Hcode Hmem Hauthor Hvalid Hcode' Hmem'.
  destruct (unique_code_split srv c Huniq Hin) as (l1 & l2 & Hsplit & Hother).
  rewrite (router_patch_code_run req srv c l1 l2) by done.
  rewrite bool_decide_eq_true_2 by done. cbn [fst].
  rewrite (router_get_code_at req' _ (edited req c) l1 l2); [|done..].
  rewrite bool_decide_eq_true_2 by done. by split_and!.
Qed.

Lemma edit_then_read_witness :
  snd (router_get_code (Sample.request "u2" "abc123" "" [])
         (fst (router_patch_code
                 (Sample.request "u1" "abc123" ""
                    [("title", "Algebra II"); ("subject", "Maths");
                     ("subcode", "M102")])
                 Sample.srv)))
  = mkResponse 200
      (Json (VClassroom
               (edited
                  (Sample.request "u1" "abc123" ""
                     [("title", "Algebra II"); ("subject", "Maths");
                      ("subcode", "M102")])
                  Sample.algebra))).
Proof.
  apply (edit_then_read
           (Sample.request "u1" "abc123" ""
              [("title", "Algebra II"); ("subject", "Maths");
               ("subcode", "M102")])
           (Sample.request "u2" "abc123" "" []) Sample.srv Sample.algebra
           sample_unique_codes sample_stored eq_refl sample_member_alice
           eq_refl eq_refl eq_refl sample_member_bob).
Defined.

(** X13: the remove-member route refuses a member who is not the author:
    it answers "User not authorized." with status 400 and leaves the
    server as it is, whoever the target is. *)
Theorem remove_member_by_non_author_is_refused (req : Request)
  (srv : Server) (c : Classroom.t) :
  unique_codes srv -> stored srv c ->
  Classroom.code c = params_code req -> member (user_id req) c ->
  Classroom.author c <> user_id req ->
  router_delete_code_user req srv
  = (srv, mkResponse 400 (Json (VMsg "User not authorized."))).
Proof.
  intros Huniq Hin Hcode Hmem Hauthor.
  destruct (unique_code_split srv c Huniq Hin) as (l1 & l2 & Hsplit & Hother).
  rewrite (router_delete_code_user_run req srv c l1 l2) by done.
  by rewrite bool_decide_eq_false_2.
Qed.

Lemma remove_member_by_non_author_is_refused_witness :
  router_delete_code_user (Sample.request "u2" "abc123" "u1" []) Sample.srv
  = (Sample.srv, mkResponse 400 (Json (VMsg "User not authorized."))).
Proof.
  apply (remove_member_by_non_author_is_refused
           (Sample.request "u2" "abc123" "u1" []) Sample.srv Sample.algebra
           sample_unique_codes sample_stored eq_refl sample_member_bob).
  discriminate.
Defined.

(** X14: remove, then read.  After the author has removed a target whose
    string spells the reference [t], the user [t] who reads the code is
    answered "Class does not exist.", and every other member still gets
    the record, now without [t]. *)
Theorem removed_member_loses_access (req req' : Request) (srv : Server)
  (c : Classroom.t) (t : ObjectId) :
  unique_codes srv -> stored srv c ->
  Classroom.code c = params_code req -> member (user_id req) c ->
  Classroom.author c = user_id req ->
  cast_ObjectId (params_user req) = Some t ->
  params_code req' = Classroom.code c ->
  (user_id req' = t ->
   snd (router_get_code req' (fst (router_delete_code_user req srv)))
   = mkResponse 400 (Json (VMsg "Class does not exist.")))
  /\ (member (user_id req') c -> user_id req' <> t ->
      snd (router_get_code req' (fst (router_delete_code_user req srv)))
      = mkResponse 200 (Json (VClassroom (left_by t c)))).
Proof.
  intros Huniq Hin Hcode Hmem Hauthor Hcast Hcode'.
  destruct (unique_code_split srv c Huniq Hin) as (l1 & l2 & Hsplit & Hother).
  rewrite (router_delete_code_user_run req srv c l1 l2) by done.
  rewrite bool_decide_eq_true_2, Hcast by done. cbn [fst].
  rewrite (router_get_code_at req' _ (left_by t c) l1 l2); [|done..].
  split.
  - intros Htarget. rewrite bool_decide_eq_false_2; [done|].
    rewrite left_by_members. tauto.
  - intros Hmem' Hne. rewrite bool_decide_eq_true_2; [done|].
    by rewrite left_by_members.
Qed.

(** Dana removes Eli, spelling his id in upper case; Eli then reads the
    code. *)
Lemma removed_member_loses_access_witness :
  snd (router_get_code
         (Sample.request "5f1a2b3c4d5e6f7a8b9c0da2" "Zx81Qa" "" [])
         (fst (router_delete_code_user
                 (Sample.request "5f1a2b3c4d5e6f7a8b9c0da1" "Zx81Qa"
                    "5F1A2B3C4D5E6F7A8B9C0DA2" [])
                 Hex.srv)))
  = mkResponse 400 (Json (VMsg "Class does not exist.")).
Proof.
  apply (removed_member_loses_access
           (Sample.request "5f1a2b3c4d5e6f7a8b9c0da1" "Zx81Qa"
              "5F1A2B3C4D5E6F7A8B9C0DA2" [])
           (Sample.request "5f1a2b3c4d5e6f7a8b9c0da2" "Zx81Qa" "" [])
           Hex.srv Hex.physics "5f1a2b3c4d5e6f7a8b9c0da2"
           hex_unique_codes hex_stored eq_refl hex_member_dana eq_refl
           eq_refl eq_refl).
  reflexivity.
Defined.

(** X15: leave, then come back.  After a member who is not the author
    has left, reading the code and a second leave request are both
    answered "Class does not exist." for that caller, the second request
    changing nothing; every other member still reads the record, now
    without the leaver. *)
Theorem leaver_loses_access (req req' : Request) (srv : Server)
  (c : Classroom.t) :
  unique_codes srv -> unique_ids srv -> stored srv c ->
  Classroom.code c = params_code req -> member (user_id req) c ->
  Classroom.author c <> user_id req ->
  snd (router_get_code req (fst (router_delete_code req srv)))
  = mkResponse 400 (Json (VMsg "Class does not exist."))
  /\ router_delete_code req (fst (router_delete_code req srv))
     = (fst (router_delete_code req srv),
        mkResponse 400 (Json (VMsg "Class does not exist.")))
  /\ (params_code req' = Classroom.code c -> member (user_id req') c ->
      user_id req' <> user_id req ->
      snd (router_get_code req' (fst (router_delete_code req srv)))
      = mkResponse 200 (Json (VClassroom (left_by (user_id req) c)))).
Proof.
  intros Huniq Hids Hin Hcode Hmem Hauthor.
  destruct (unique_code_split srv c Huniq Hin) as (l1 & l2 & Hsplit & Hother).
  assert (Hoid : forall d, d ∈ l1 ++ l2 ->
                           Classroom._id d <> Classroom._id c).
  { unfold unique_ids in Hids. rewrite Hsplit in Hids.
    by apply NoDup_fmap_split. }
  rewrite (router_delete_code_run req srv c l1 l2) by done.
  rewrite bool_decide_eq_false_2 by done. cbn [fst].
  assert (Hgone : ~ member (user_id req) (left_by (user_id req) c)).
  { rewrite left_by_members. tauto. }
  split_and!.
  - rewrite (router_get_code_at req _ (left_by (user_id req) c) l1 l2);
      [|done..].
    by rewrite bool_decide_eq_false_2.
  - apply gated_lookup_fails. intros (d & Hd & Hdcode & Hdmem).
    unfold stored in Hd. cbn in Hd.
    apply elem_of_app in Hd as [Hd|Hd].
    + apply (Hother d); [apply elem_of_app; by left | congruence].
    + apply elem_of_cons in Hd as [->|Hd]; [done|].
      apply (Hother d); [apply elem_of_app; by right | congruence].
  - intros Hcode' Hmem' Hne.
    rewrite (router_get_code_at req' _ (left_by (user_id req) c) l1 l2);
      [|done..].
    rewrite bool_decide_eq_true_2; [done|]. by rewrite left_by_members.
Qed.

Lemma leaver_loses_access_witness :
  snd (router_get_code (Sample.request "u2" "abc123" "" [])
         (fst (router_delete_code (Sample.request "u2" "abc123" "" [])
                 Sample.srv)))
  = mkResponse 400 (Json (VMsg "Class does not exist.")).
Proof.
  apply (leaver_loses_access (Sample.request "u2" "abc123" "" [])
           (Sample.request "u1" "abc123" "" []) Sample.srv Sample.algebra
           sample_unique_codes sample_unique_ids sample_stored eq_refl
           sample_member_bob).
  discriminate.
Defined.

(** X16: the same edit twice.  Repeating the author's edit leaves the
    store as the first edit left it and is answered with the same
    record. *)
Theorem edit_is_idempotent (req : Request) (srv : Server)
  (c : Classroom.t) :
  unique_codes srv -> stored srv c ->
  Classroom.code c = params_code req -> member (user_id req) c ->
  Classroom.author c = user_id req -> edit_body_valid req = true ->
  router_patch_code req (fst (router_patch_code req srv))
  = router_patch_code req srv.
Proof.
  intros Huniq Hin Hcode Hmem Hauthor Hvalid.
  destruct (unique_code_split srv c Huniq Hin) as (l1 & l2 & Hsplit & Hother).
  rewrite (router_patch_code_run req srv c l1 l2) by done.
  rewrite bool_decide_eq_true_2 by done. cbn [fst].
  rewrite (router_patch_code_run req _ (edited req c) l1 l2) by done.
  rewrite bool_decide_eq_true_2 by done. done.
Qed.

Lemma edit_is_idempotent_witness :
  router_patch_code
    (Sample.request "u1" "abc123" ""
       [("title", "Algebra II"); ("subject", "Maths"); ("subcode", "M102")])
    (fst (router_patch_code
            (Sample.request "u1" "abc123" ""
               [("title", "Algebra II"); ("subject", "Maths");
                ("subcode", "M102")])
            Sample.srv))
  = router_patch_code
      (Sample.request "u1" "abc123" ""
         [("title", "Algebra II"); ("subject", "Maths"); ("subcode", "M102")])
      Sample.srv.
Proof.
  exact (edit_is_idempotent
           (Sample.request "u1" "abc123" ""
              [("title", "Algebra II"); ("subject", "Maths");
               ("subcode", "M102")])
           Sample.srv Sample.algebra sample_unique_codes sample_stored
           eq_refl sample_member_alice eq_refl eq_refl).
Defined.

(** ** Which requests keep the author among the members *)

(** The two branches of the delete route, without the primary-key
    constraint. *)
Lemma router_delete_code_branches (req : Request) (srv : Server)
  (c : Classroom.t) (l1 l2 : list Classroom.t) :
  classrooms srv = l1 ++ c :: l2 ->
  (forall d, d ∈ l1 ++ l2 -> Classroom.code d <> Classroom.code c) ->
  Classroom.code c = params_code req -> member (user_id req) c ->
  fst (router_delete_code req srv)
  = if bool_decide (Classroom.author c = user_id req)
    then set_classrooms srv
           (delete_first
              (fun d => String.eqb (Classroom._id d) (Classroom._id c))
              (classrooms srv))
    else set_classrooms srv (l1 ++ left_by (user_id req) c :: l2).
Proof.
  intros Hsplit Hcodes Hcode Hmem.
  unfold router_delete_code. run_handler.
  rewrite (find_gated srv req c l1 l2) by done. cbn.
  rewrite eqb_decide. case_bool_decide; cbn; [done|].
  rewrite Hsplit, (update_by_code _ _ c) by done.
  by rewrite apply_pull.
Qed.

Lemma visible_or_not (req : Request) (srv : Server) :
  unique_codes srv ->
  (~ exists c, visible srv req c)
  \/ exists c l1 l2,
       classrooms srv = l1 ++ c :: l2
       /\ (forall d, d ∈ l1 ++ l2 -> Classroom.code d <> Classroom.code c)
       /\ Classroom.code c = params_code req /\ member (user_id req) c.
Proof.
  intros Huniq.
  destruct (List.find (matches [("code", params_code req);
                                ("joinedUsers", user_id req)])
              (classrooms srv)) as [c|] eqn:Hfind.
  - right. apply find_visible in Hfind as (Hin & Hcode & Hmem).
    destruct (unique_code_split srv c Huniq Hin)
      as (l1 & l2 & Hsplit & Hother).
    by exists c, l1, l2.
  - left. intros (c & Hin & Hcode & Hmem).
    rewrite find_none_iff in Hfind. specialize (Hfind c Hin).
    assert (matches [("code", params_code req);
                     ("joinedUsers", user_id req)] c = true)
      by by apply matches_code_member.
    congruence.
Qed.

Lemma author_is_member_replace (srv : Server) (c c' : Classroom.t)
  (l1 l2 : list Classroom.t) :
  classrooms srv = l1 ++ c :: l2 -> author_is_member srv ->
  member (Classroom.author c') c' ->
  author_is_member (set_classrooms srv (l1 ++ c' :: l2)).
Proof.
  unfold author_is_member, stored. intros Hsplit Hinv Hc' d. cbn.
  rewrite elem_of_app, elem_of_cons. intros [Hd|[->|Hd]]; [|done|].
  - apply Hinv. rewrite Hsplit, elem_of_app. by left.
  - apply Hinv. rewrite Hsplit, elem_of_app, elem_of_cons. tauto.
Qed.

(** X17: every stored record keeps its author among its members along
    every request but one: the remove-member request whose target string
    spells the reference of the caller.  Join codes are taken to be
    unique. *)
Theorem author_membership_preserved (r : Route) (req : Request)
  (srv : Server) :
  unique_codes srv -> author_is_member srv ->
  (r = DeleteCodeUser ->
   cast_ObjectId (params_user req) <> Some (user_id req)) ->
  author_is_member (fst (handle r req srv)).
Proof.
  intros Huniq Hinv Htarget. destruct r; cbn [handle].
  - by rewrite router_get_root_run.
  - by apply create_keeps_author_is_member.
  - by rewrite router_get_code_run.
  - by rewrite router_post_code_run.
  - destruct (edit_body_valid req) eqn:Hvalid;
      [|by rewrite router_patch_code_invalid].
    destruct (visible_or_not req srv Huniq)
      as [Hno|(c & l1 & l2 & Hsplit & Hother & Hcode & Hmem)].
    + unfold router_patch_code. fold (edit_errors req).
      rewrite edit_errors_valid, Hvalid. run_handler.
      by rewrite (find_not_visible req srv Hno).
    + rewrite (router_patch_code_run req srv c l1 l2) by done.
      case_bool_decide; [|done]. cbn [fst].
      apply (author_is_member_replace srv c); [done..|].
      apply (Hinv c). unfold stored. rewrite Hsplit, elem_of_app.
      right. by constructor.
  - destruct (visible_or_not req srv Huniq)
      as [Hno|(c & l1 & l2 & Hsplit & Hother & Hcode & Hmem)].
    + by rewrite gated_lookup_fails.
    + rewrite (router_delete_code_branches req srv c l1 l2) by done.
      case_bool_decide as Hauthor.
      * intros d Hd. apply Hinv. unfold stored in *. cbn in Hd.
        by eapply delete_first_elem.
      * apply (author_is_member_replace srv c); [done..|].
        apply left_by_members. split; [|done].
        apply (Hinv c). unfold stored. rewrite Hsplit, elem_of_app.
        right. by constructor.
  - destruct (visible_or_not req srv Huniq)
      as [Hno|(c & l1 & l2 & Hsplit & Hother & Hcode & Hmem)].
    + unfold router_delete_code_user. run_handler.
      by rewrite (find_not_visible req srv Hno).
    + rewrite (router_delete_code_user_run req srv c l1 l2) by done.
      case_bool_decide as Hauthor; [|done].
      destruct (cast_ObjectId (params_user req)) as [t|] eqn:Hcast; [|done].
      cbn [fst].
      apply (author_is_member_replace srv c); [done..|].
      apply left_by_members. split.
      * apply (Hinv c). unfold stored. rewrite Hsplit, elem_of_app.
        right. by constructor.
      * cbn. rewrite Hauthor. intros Heq. apply Htarget; [done|].
        by rewrite Heq.
  - unfold router_get_code_users. run_handler.
    destruct (List.find _ _); cbn; [|done]. by destruct (_ !! _).
Qed.

(** Dana removes Eli, spelling his id in upper case. *)
Lemma author_membership_preserved_witness :
  author_is_member
    (fst (handle DeleteCodeUser
            (Sample.request "5f1a2b3c4d5e6f7a8b9c0da1" "Zx81Qa"
               "5F1A2B3C4D5E6F7A8B9C0DA2" [])
            Hex.srv)).
Proof.
  apply (author_membership_preserved DeleteCodeUser
           (Sample.request "5f1a2b3c4d5e6f7a8b9c0da1" "Zx81Qa"
              "5F1A2B3C4D5E6F7A8B9C0DA2" [])
           Hex.srv hex_unique_codes).
  - intros d Hd. unfold stored in Hd. cbn in Hd.
    apply list_elem_of_singleton in Hd as ->. exact hex_member_dana.
  - intros _ Hcast. vm_compute in Hcast. discriminate.
Defined.

(** ** The dashboard view *)

Lemma cards_of_class_cards (l : list Classroom.t) :
  flat_map View.cards
    (List.map (fun c => View.ClassCard (Classroom.code c) c) l)
  = List.map (fun c => (Classroom.code c, c)) l.
Proof. induction l as [|c l IH]; cbn; [done | by rewrite IH]. Qed.

Lemma texts_of_class_cards (l : list Classroom.t) :
  flat_map View.texts
    (List.map (fun c => View.ClassCard (Classroom.code c) c) l)
  = [].
Proof. induction l as [|c l IH]; cbn; [done | by rewrite IH]. Qed.

(** X18: the dashboard shows one card per classroom of its list, in the
    order of the list and keyed by the join code, whatever the state of
    the theme dialog; it shows the text "No classes here!" exactly when
    the list is empty; and the keys of the cards are pairwise distinct
    when the join codes of the list are. *)
Theorem dashboard_shows_one_card_per_classroom
  (classrooms : list Classroom.t) (open : bool) :
  View.cards (View.Dashboard classrooms open)
  = List.map (fun c => (Classroom.code c, c)) classrooms
  /\ ("No classes here!" ∈ View.texts (View.Dashboard classrooms open)
      <-> classrooms = [])
  /\ (NoDup (Classroom.code <$> classrooms) ->
      NoDup (fst <$> View.cards (View.Dashboard classrooms open))).
Proof.
  assert (Hcards : View.cards (View.Dashboard classrooms open)
                   = List.map (fun c => (Classroom.code c, c)) classrooms).
  { destruct classrooms as [|c l]; [done|].
    cbn. by rewrite app_nil_r, cards_of_class_cards. }
  split_and!; [done| |].
  - destruct classrooms as [|c l].
    + split; [done|]. intros _. cbn. by constructor.
    + cbn. rewrite texts_of_class_cards. cbn. split; [|done].
      by intros ?%elem_of_nil.
  - rewrite Hcards. intros Hnd.
    assert (fst <$> List.map (fun c => (Classroom.code c, c)) classrooms
            = Classroom.code <$> classrooms) as ->; [|done].
    induction classrooms as [|c l IH]; cbn; [done|].
    f_equal. apply IH.
    + destruct l; [done|]. cbn. by rewrite app_nil_r, cards_of_class_cards.
    + by apply NoDup_cons in Hnd as [_ ?].
Qed.

Lemma run_snoc (events : list View.Event) (e : View.Event) :
  View.run (events ++ [e]) = View.dispatch e (View.run events).
Proof. unfold View.run. by rewrite fold_left_app. Qed.

(** X19: the theme dialog is closed at first; the tree offers two
    handlers, the click on the icon and the close callback of the dialog,
    and passes its state to the dialog; after any run of handlers the
    dialog is open exactly when the last one run was the click on the
    icon. *)
Theorem dashboard_dialog_follows_the_last_handler
  (classrooms : list Classroom.t) (open : bool)
  (events : list View.Event) :
  View.dialogs (View.Dashboard classrooms open) = [open]
  /\ View.handlers (View.Dashboard classrooms open)
     = [View.handleClickOpen; View.handleClose]
  /\ View.run [] = false
  /\ View.run events
     = bool_decide (last events = Some View.handleClickOpen).
Proof.
  split_and!.
  - destruct classrooms as [|c l]; [done|]. cbn.
    assert (forall k, flat_map View.dialogs
              (List.map (fun c => View.ClassCard (Classroom.code c) c) k)
            = []) as Hk.
    { induction k as [|x k IH]; cbn; [done | by rewrite IH]. }
    by rewrite Hk.
  - destruct classrooms as [|c l]; [done|]. cbn.
    assert (forall k, flat_map View.handlers
              (List.map (fun c => View.ClassCard (Classroom.code c) c) k)
            = []) as Hk.
    { induction k as [|x k IH]; cbn; [done | by rewrite IH]. }
    by rewrite Hk.
  - done.
  - induction events as [|e events IH] using rev_ind; [done|].
    rewrite run_snoc, last_snoc. destruct e as [[|]]; cbn; [done|].
    by rewrite bool_decide_eq_false_2.
Qed.
